(** * gqlalchemy.query_builder: the Cypher query builder

    A shallow embedding of [gqlalchemy/query_builder.py]: the partial-query
    classes with their [construct_query] methods, the [DeclarativeBase]
    builder with its chaining methods, [_construct_query], [execute] and
    [get_single], and the preset builders [Create], [Match], [Merge], [Call],
    [Unwind] and [With].

    Python strings are modelled as [string], a sequence of characters with
    code points below 256.  Mutating methods are functions in a small
    state-and-exception monad over the builder object and the log of calls
    made on the connection. *)

From Stdlib Require Import String Ascii List Bool Arith ZArith DecimalString.
Import ListNotations.
Open Scope list_scope.
Open Scope string_scope.

Set Implicit Arguments.

(** ** Strings *)

Module Str.

(** [is_space c]: [c] is matched by the regular expression [\s] on a [str]
    pattern: the ASCII white space [\t\n\v\f\r] and the space, the separators
    U+001C..U+001F, and, below 256, U+0085 and U+00A0. *)
Definition is_space (c : ascii) : bool :=
  let n := nat_of_ascii c in
  (((9 <=? n) && (n <=? 13)) || ((28 <=? n) && (n <=? 32))
   || (n =? 133) || (n =? 160))%nat.

(** [re_sub_ws in_run s] is [re.sub("\\s\\s+", " ", s)]: scanning from the
    left, every maximal run of two or more white-space characters is replaced
    by one space; a white-space character standing alone is kept as it is.
    [in_run] says that the previous character belonged to a run already
    replaced. *)
Fixpoint re_sub_ws (in_run : bool) (s : string) : string :=
  match s with
  | EmptyString => EmptyString
  | String c t =>
      if is_space c then
        if in_run then re_sub_ws true t
        else match t with
             | String d _ =>
                 if is_space d then String " " (re_sub_ws true t)
                 else String c (re_sub_ws false t)
             | EmptyString => String c EmptyString
             end
      else String c (re_sub_ws false t)
  end.

Definition collapse_whitespace (s : string) : string := re_sub_ws false s.

(** [has_no_run s]: no two neighbouring characters of [s] are both white
    space, so the pattern [\s\s+] matches nowhere in [s]. *)
Fixpoint has_no_run (s : string) : bool :=
  match s with
  | EmptyString => true
  | String c t =>
      match t with
      | EmptyString => true
      | String d _ => negb (is_space c && is_space d) && has_no_run t
      end
  end.

(** [s] does not start with a white-space character. *)
Definition starts_clear (s : string) : bool :=
  match s with
  | EmptyString => true
  | String c _ => negb (is_space c)
  end.

(** [contains needle s] is Python's [needle in s]. *)
Fixpoint contains (needle s : string) : bool :=
  prefix needle s ||
  match s with
  | EmptyString => false
  | String _ t => contains needle t
  end.

(** [join sep l] is Python's [sep.join(l)]. *)
Definition join (sep : string) (l : list string) : string := String.concat sep l.

(** Truthiness of a string: [bool(s)]. *)
Definition truthy (s : string) : bool :=
  match s with EmptyString => false | String _ _ => true end.

(** [words s]: the maximal runs of characters of [s] that are not white
    space, in order. *)
Fixpoint words (s : string) : list string :=
  match s with
  | EmptyString => []
  | String c t =>
      if is_space c then words t
      else match t with
           | EmptyString => [String c EmptyString]
           | String d _ =>
               if is_space d then String c EmptyString :: words t
               else match words t with
                    | w :: ws => String c w :: ws
                    | [] => [String c EmptyString]
                    end
           end
  end.

(** The last character of [s], if it has one. *)
Fixpoint last_char (s : string) : option ascii :=
  match s with
  | EmptyString => None
  | String c t =>
      match last_char t with
      | None => Some c
      | Some d => Some d
      end
  end.

(** Whether [s] starts with a white-space character, if it starts at all. *)
Definition head_space (s : string) : option bool :=
  match s with
  | EmptyString => None
  | String c _ => Some (is_space c)
  end.

End Str.

(** ** Optional values *)

(** [x if x is not None else ""], the body of the string properties. *)
Definition or_empty (x : option string) : string :=
  match x with Some s => s | None => "" end.

(** [bool(x)] for an [Optional[bool]]. *)
Definition py_bool (x : option bool) : bool :=
  match x with Some b => b | None => false end.

(** ** class DeclarativeBaseTypes *)

Module DeclarativeBaseTypes.
Definition AND_WHERE := "AND_WHERE".
Definition CALL := "CALL".
Definition CREATE := "CREATE".
Definition DELETE := "DELETE".
Definition EDGE := "EDGE".
Definition LIMIT := "LIMIT".
Definition LOAD_CSV := "LOAD_CSV".
Definition MATCH := "MATCH".
Definition MERGE := "MERGE".
Definition NODE := "NODE".
Definition ORDER_BY := "ORDER_BY".
Definition OR_WHERE := "OR_WHERE".
Definition REMOVE := "REMOVE".
Definition RETURN := "RETURN".
Definition SKIP := "SKIP".
Definition UNION := "UNION".
Definition UNWIND := "UNWIND".
Definition WHERE := "WHERE".
Definition WITH := "WITH".
Definition YIELD := "YIELD".
Definition XOR_WHERE := "XOR_WHERE".
End DeclarativeBaseTypes.

Module WhereConditionConstants.
Definition WHERE := "WHERE".
Definition AND := "AND".
Definition OR := "OR".
Definition XOR := "XOR".
End WhereConditionConstants.

(** ** The partial queries *)

(** A [Dict[str, str]] in insertion order, as [items()] lists it. *)
Definition AliasDict := list (string * string).

(** One constructor per subclass of [PartialQuery], holding the attributes
    its [__init__] stores. *)
Inductive PartialQuery : Type :=
| LoadCsvPartialQuery (path : string) (header : bool) (row : string)
| MatchPartialQuery (optional : bool)
| MergePartialQuery
| CreatePartialQuery
| CallPartialQuery (procedure : string) (arguments : option string)
| WhereConditionPartialQuery (keyword : string) (query : string)
| NodePartialQuery (_variable _labels _properties : option string)
| EdgePartialQuery (_variable _labels _properties : option string)
                   (directed : bool) (_from : bool)
| UnwindPartialQuery (list_expression : string) (variable : string)
| WithPartialQuery (_results : option AliasDict)
| UnionPartialQuery (include_duplicates : option bool)
| DeletePartialQuery (_variable_expressions : option (list string))
                     (detach : option bool)
| RemovePartialQuery (_items : option (list string))
| YieldPartialQuery (_results : option AliasDict)
| ReturnPartialQuery (_results : option AliasDict)
| OrderByPartialQuery (properties : string)
| LimitPartialQuery (integer_expression : string)
| SkipPartialQuery (integer_expression : string)
| AddStringPartialQuery (custom_cypher : string).

(** The [type] attribute each [__init__] passes to [PartialQuery.__init__]. *)
Definition type (q : PartialQuery) : string :=
  match q with
  | LoadCsvPartialQuery _ _ _ => DeclarativeBaseTypes.LOAD_CSV
  | MatchPartialQuery _ => DeclarativeBaseTypes.MATCH
  | MergePartialQuery => DeclarativeBaseTypes.MERGE
  | CreatePartialQuery => DeclarativeBaseTypes.CREATE
  | CallPartialQuery _ _ => DeclarativeBaseTypes.CALL
  | WhereConditionPartialQuery _ _ => DeclarativeBaseTypes.WHERE
  | NodePartialQuery _ _ _ => DeclarativeBaseTypes.NODE
  | EdgePartialQuery _ _ _ _ _ => DeclarativeBaseTypes.EDGE
  | UnwindPartialQuery _ _ => DeclarativeBaseTypes.UNWIND
  | WithPartialQuery _ => DeclarativeBaseTypes.WITH
  | UnionPartialQuery _ => DeclarativeBaseTypes.UNION
  | DeletePartialQuery _ _ => DeclarativeBaseTypes.DELETE
  | RemovePartialQuery _ => DeclarativeBaseTypes.REMOVE
  | YieldPartialQuery _ => DeclarativeBaseTypes.YIELD
  | ReturnPartialQuery _ => DeclarativeBaseTypes.RETURN
  | OrderByPartialQuery _ => DeclarativeBaseTypes.ORDER_BY
  | LimitPartialQuery _ => DeclarativeBaseTypes.LIMIT
  | SkipPartialQuery _ => DeclarativeBaseTypes.SKIP
  | AddStringPartialQuery _ => DeclarativeBaseTypes.SKIP
  end.

(** One entry of [dict_to_alias_statement]'s generator. *)
Definition alias_entry (kv : string * string) : string :=
  let (key, value) := kv in
  if negb (value =? "") && negb (key =? value)
  then key ++ " AS " ++ value
  else key.

Definition dict_to_alias_statement (alias_dict : AliasDict) : string :=
  Str.join ", " (map alias_entry alias_dict).

(** The [results] property of the With, Yield and Return queries
    ([""] for [None], whose [len] is 0 as well). *)
Definition results (_results : option AliasDict) : AliasDict :=
  match _results with Some d => d | None => [] end.

(** The list properties of Delete and Remove ([""] for [None]: joining the
    characters of the empty string gives the empty string). *)
Definition or_no_items (x : option (list string)) : list string :=
  match x with Some l => l | None => [] end.

(** The body shared by the [construct_query] of With, Yield and Return. *)
Definition alias_query (keyword : string) (_results : option AliasDict) : string :=
  if (List.length (results _results) =? 0)%nat
  then " " ++ keyword ++ " * "
  else " " ++ keyword ++ " " ++ dict_to_alias_statement (results _results) ++ " ".

Definition node_construct_query (_variable _labels _properties : option string) : string :=
  "(" ++ or_empty _variable ++ or_empty _labels
      ++ (if Str.truthy (or_empty _properties)
          then " " ++ or_empty _properties else "")
      ++ ")".

Definition edge_construct_query
    (_variable _labels _properties : option string) (directed _from : bool) : string :=
  let relationship_query :=
    or_empty _variable ++ or_empty _labels ++ or_empty _properties in
  if negb directed then "-[" ++ relationship_query ++ "]-"
  else if _from then "<-[" ++ relationship_query ++ "]-"
  else "-[" ++ relationship_query ++ "]->".

(** [construct_query], by subclass. *)
Definition construct_query (q : PartialQuery) : string :=
  match q with
  | LoadCsvPartialQuery path header row =>
      " LOAD CSV FROM '" ++ path ++ "' "
        ++ (if header then "WITH" else "NO") ++ " HEADER AS " ++ row ++ " "
  | MatchPartialQuery optional =>
      if optional then " OPTIONAL MATCH " else " MATCH "
  | MergePartialQuery => " MERGE "
  | CreatePartialQuery => " CREATE "
  | CallPartialQuery procedure arguments =>
      " CALL " ++ procedure ++ "("
        ++ (if Str.truthy (or_empty arguments) then or_empty arguments else "")
        ++ ") "
  | WhereConditionPartialQuery keyword query =>
      " " ++ keyword ++ " " ++ query ++ " "
  | NodePartialQuery v l p => node_construct_query v l p
  | EdgePartialQuery v l p directed _from =>
      edge_construct_query v l p directed _from
  | UnwindPartialQuery list_expression variable =>
      " UNWIND " ++ list_expression ++ " AS " ++ variable ++ " "
  | WithPartialQuery r => alias_query "WITH" r
  | UnionPartialQuery include_duplicates =>
      " UNION" ++ (if py_bool include_duplicates then " ALL" else "") ++ " "
  | DeletePartialQuery variable_expressions detach =>
      " " ++ (if py_bool detach then "DETACH" else "") ++ " DELETE "
        ++ Str.join ", " (or_no_items variable_expressions) ++ " "
  | RemovePartialQuery items =>
      " REMOVE " ++ Str.join ", " (or_no_items items) ++ " "
  | YieldPartialQuery r => alias_query "YIELD" r
  | ReturnPartialQuery r => alias_query "RETURN" r
  | OrderByPartialQuery properties => " ORDER BY " ++ properties ++ " "
  | LimitPartialQuery integer_expression =>
      " LIMIT " ++ integer_expression ++ " "
  | SkipPartialQuery integer_expression =>
      " SKIP " ++ integer_expression ++ " "
  | AddStringPartialQuery custom_cypher => custom_cypher
  end.

(** ** The collaborators *)

(** The [labels] argument of [to_cypher_labels]:
    [Union[str, List[str], None]]. *)
Inductive Labels : Type :=
| LabelsNone
| LabelsStr (s : string)
| LabelsList (l : list string).

(** An [Optional[str]] edge label, as [to_cypher_labels] receives it. *)
Definition edge_label_arg (edge_label : option string) : Labels :=
  match edge_label with Some s => LabelsStr s | None => LabelsNone end.

(** The exceptions the builder's methods end with: its own, and those of
    subscripting ([result[retrieve]]). *)
Inductive Exception : Type :=
| InvalidMatchChainException
| KeyError (key : string)
| TypeError.

(** How a call ends: it returns a value or raises. *)
Inductive Outcome (A : Type) : Type :=
| Returns (a : A)
| Raises (e : Exception).
Arguments Raises {A} e.

(** What the builder does with its collaborators, in order: the two methods
    of the connection, [next] on the iterator [execute_and_fetch] returned,
    and subscription of a fetched row. *)
Inductive Event : Type :=
| ExecuteAndFetch (query : string)
| Execute (query : string)
| Next
| GetItem (key : string).

(** [gqlalchemy.utilities], imported by the module: the three functions the
    builder calls, over [Value], the type of what Python passes as [Any]
    (the values of properties, of conditions and of result rows). *)
Class Utilities : Type := {
  Value : Type;
  to_cypher_labels : Labels -> string;
  to_cypher_properties : list (string * Value) -> string;
  to_cypher_value : Value -> string
}.

Section Builder.

Context {U : Utilities}.

Definition Properties : Type := list (string * Value).

(** A result row, [Dict[str, Any]]. *)
Definition Row : Type := list (string * Value).

(** [gqlalchemy.models.Node] and [Relationship], as far as the builder reads
    them. *)
Record Node : Type := { Node_labels : Labels; Node_properties : Properties }.
Record Relationship : Type :=
  { Relationship_type : Labels; Relationship_properties : Properties }.

(** A connection ([Connection] or [Memgraph]): [rows c query] lists the rows
    that the iterator [c.execute_and_fetch(query)] yields. *)
Record Connection : Type := { rows : string -> list Row }.

(** [Memgraph()], the connection a builder makes when it is given none. *)
Class DefaultConnection : Type := { Memgraph : Connection }.

Context {D : DefaultConnection}.

(** The objects [execute] and [get_single] return. *)
Inductive PyObject : Type :=
| PyNone
| PyDict (row : Row)
| PyValue (v : Value)
| PyIterator (pending : list Row).

(** [bool(x)], as [if result:] tests it. *)
Definition truth (x : PyObject) : bool :=
  match x with
  | PyNone => false
  | PyDict row => negb (List.length row =? 0)%nat
  | PyValue _ => true
  | PyIterator _ => true
  end.

(** [row[key]] on a dictionary. *)
Fixpoint lookup (key : string) (row : Row) : option Value :=
  match row with
  | [] => None
  | (k, v) :: rest => if k =? key then Some v else lookup key rest
  end.

(** *** class DeclarativeBase *)

Record DeclarativeBase : Type := {
  _query : list PartialQuery;
  _connection : Connection;
  _fetch_results : bool
}.

(** The builder object together with the log of what it asked of its
    collaborators. *)
Record World : Type := { self : DeclarativeBase; trace : list Event }.

(** Methods: state passing with exceptions.  A method that raises leaves the
    world as it was when it raised. *)
Definition M (A : Type) : Type := World -> Outcome A * World.

Definition ret {A : Type} (a : A) : M A := fun w => (Returns a, w).

Definition bind {A B : Type} (m : M A) (k : A -> M B) : M B :=
  fun w =>
    match m w with
    | (Returns a, w') => k a w'
    | (Raises e, w') => (Raises e, w')
    end.

Definition raise {A : Type} (e : Exception) : M A := fun w => (Raises e, w).

Local Notation "x <- m ;; k" := (bind m (fun x => k))
  (at level 61, m at next level, right associativity).
Local Notation "m ;; k" := (bind m (fun _ => k))
  (at level 61, right associativity).

(** Reading an attribute of [self]. *)
Definition get {A : Type} (attr : DeclarativeBase -> A) : M A :=
  fun w => (Returns (attr (self w)), w).

(** [self._query.append(partial_query)], on the object and as a method
    step. *)
Definition append (partial_query : PartialQuery) (o : DeclarativeBase)
    : DeclarativeBase :=
  {| _query := (_query o ++ [partial_query])%list;
     _connection := _connection o;
     _fetch_results := _fetch_results o |}.

Definition _query_append (partial_query : PartialQuery) : M unit :=
  fun w =>
    (Returns tt, {| self := append partial_query (self w); trace := trace w |}).

(** [self._fetch_results = True] *)
Definition _fetch_results_set_true : M unit :=
  fun w =>
    (Returns tt,
     {| self := {| _query := _query (self w);
                   _connection := _connection (self w);
                   _fetch_results := true |};
        trace := trace w |}).

(** A call on a collaborator, written to the log. *)
Definition emit (e : Event) : M unit :=
  fun w => (Returns tt, {| self := self w; trace := (trace w ++ [e])%list |}).

(** [DeclarativeBase.__init__] *)
Definition __init__ (connection : option Connection) : DeclarativeBase :=
  {| _query := [];
     _connection := match connection with Some c => c | None => Memgraph end;
     _fetch_results := false |}.

(** [self._query[-1]] *)
Definition last_item (q : list PartialQuery) : option PartialQuery :=
  match rev q with [] => None | p :: _ => Some p end.

(** [len(self._query) == 0 or self._query[-1].type != match_type] *)
Definition is_linking_valid (q : list PartialQuery) (match_type : string) : bool :=
  (List.length q =? 0)%nat
  || match last_item q with
     | Some p => negb (type p =? match_type)
     | None => false
     end.

Definition _is_linking_valid_with_query (match_type : string) : M bool :=
  q <- get _query ;; ret (is_linking_valid q match_type).

Definition match_ (optional : bool) : M unit :=
  _query_append (MatchPartialQuery optional).

Definition merge : M unit := _query_append MergePartialQuery.

Definition create : M unit := _query_append CreatePartialQuery.

Definition call (procedure : string) (arguments : option string) : M unit :=
  _query_append (CallPartialQuery procedure arguments).

Definition node (labels : Labels) (variable : option string)
    (node : option Node) (kwargs : Properties) : M unit :=
  valid <- _is_linking_valid_with_query DeclarativeBaseTypes.NODE ;;
  if negb valid then raise InvalidMatchChainException
  else
    let (labels_str, properties_str) :=
      match node with
      | None => (to_cypher_labels labels, to_cypher_properties kwargs)
      | Some n => (to_cypher_labels (Node_labels n),
                   to_cypher_properties (Node_properties n))
      end in
    _query_append
      (NodePartialQuery variable (Some labels_str) (Some properties_str)).

Definition to (edge_label : option string) (directed : option bool)
    (variable : option string) (relationship : option Relationship)
    (kwargs : Properties) : M unit :=
  valid <- _is_linking_valid_with_query DeclarativeBaseTypes.EDGE ;;
  if negb valid then raise InvalidMatchChainException
  else
    let (type_str, properties_str) :=
      match relationship with
      | None => (to_cypher_labels (edge_label_arg edge_label),
                 to_cypher_properties kwargs)
      | Some r => (to_cypher_labels (Relationship_type r),
                   to_cypher_properties (Relationship_properties r))
      end in
    _query_append
      (EdgePartialQuery variable (Some type_str) (Some properties_str)
         (py_bool directed) false).

Definition from_ (edge_label : option string) (directed : option bool)
    (variable : option string) (relationship : option Relationship)
    (kwargs : Properties) : M unit :=
  valid <- _is_linking_valid_with_query DeclarativeBaseTypes.EDGE ;;
  if negb valid then raise InvalidMatchChainException
  else
    let (labels_str, properties_str) :=
      match relationship with
      | None => (to_cypher_labels (edge_label_arg edge_label),
                 to_cypher_properties kwargs)
      | Some r => (to_cypher_labels (Relationship_type r),
                   to_cypher_properties (Relationship_properties r))
      end in
    _query_append
      (EdgePartialQuery variable (Some labels_str) (Some properties_str)
         (py_bool directed) true).

(** The condition text shared by the four [where] methods:
    [separator.join([item, operator, to_cypher_value(value)])]. *)
Definition condition (item operator : string) (value : Value) : string :=
  let separator := if operator =? ":" then "" else " " in
  Str.join separator [item; operator; to_cypher_value value].

Definition where_ (item operator : string) (value : Value) : M unit :=
  _query_append
    (WhereConditionPartialQuery WhereConditionConstants.WHERE
       (condition item operator value)).

Definition and_where (item operator : string) (value : Value) : M unit :=
  _query_append
    (WhereConditionPartialQuery WhereConditionConstants.AND
       (condition item operator value)).

Definition or_where (item operator : string) (value : Value) : M unit :=
  _query_append
    (WhereConditionPartialQuery WhereConditionConstants.OR
       (condition item operator value)).

Definition xor_where (property operator : string) (value : Value) : M unit :=
  _query_append
    (WhereConditionPartialQuery WhereConditionConstants.XOR
       (condition property operator value)).

Definition unwind (list_expression variable : string) : M unit :=
  _query_append (UnwindPartialQuery list_expression variable).

Definition with_ (results : option AliasDict) : M unit :=
  _query_append (WithPartialQuery results).

Definition union (include_duplicates : option bool) : M unit :=
  _query_append (UnionPartialQuery include_duplicates).

Definition delete (variable_expressions : option (list string))
    (detach : option bool) : M unit :=
  _query_append (DeletePartialQuery variable_expressions detach).

Definition remove (items : option (list string)) : M unit :=
  _query_append (RemovePartialQuery items).

Definition yield_ (results : option AliasDict) : M unit :=
  _query_append (YieldPartialQuery results).

Definition return_ (results : option AliasDict) : M unit :=
  _query_append (ReturnPartialQuery results) ;;
  _fetch_results_set_true.

Definition order_by (properties : string) : M unit :=
  _query_append (OrderByPartialQuery properties).

Definition limit (integer_expression : string) : M unit :=
  _query_append (LimitPartialQuery integer_expression).

Definition skip (integer_expression : string) : M unit :=
  _query_append (SkipPartialQuery integer_expression).

Definition add_custom_cypher (custom_cypher : string) : M unit :=
  _query_append (AddStringPartialQuery custom_cypher) ;;
  if Str.contains " RETURN " custom_cypher
  then _fetch_results_set_true
  else ret tt.

Definition load_csv (path : string) (header : bool) (row : string) : M unit :=
  _query_append (LoadCsvPartialQuery path header row).


(** The loop and the join of [_construct_query], on the list of partial
    queries. *)
Definition joined_query (q : list PartialQuery) : string :=
  let query :=
    fold_left
      (fun query partial_query =>
         (query ++ [construct_query partial_query])%list)
      q [""] in
  let joined_query := Str.join "" query in
  Str.collapse_whitespace joined_query.

Definition _construct_query : M string :=
  q <- get _query ;; ret (joined_query q).

(** [self._connection.execute_and_fetch(query)]: the iterator over the rows. *)
Definition connection_execute_and_fetch (query : string) : M PyObject :=
  c <- get _connection ;;
  emit (ExecuteAndFetch query) ;;
  ret (PyIterator (rows c query)).

(** [self._connection.execute(query)] *)
Definition connection_execute (query : string) : M PyObject :=
  emit (Execute query) ;; ret PyNone.

(** [next(iterator, None)] *)
Definition next_or_none (iterator : PyObject) : M PyObject :=
  match iterator with
  | PyIterator pending =>
      emit Next ;;
      ret (match pending with row :: _ => PyDict row | [] => PyNone end)
  | _ => raise TypeError
  end.

(** [result[retrieve]] *)
Definition getitem (result : PyObject) (key : string) : M PyObject :=
  match result with
  | PyDict row =>
      emit (GetItem key) ;;
      match lookup key row with
      | Some v => ret (PyValue v)
      | None => raise (KeyError key)
      end
  | _ => raise TypeError
  end.

Definition get_single (retrieve : string) : M PyObject :=
  query <- _construct_query ;;
  iterator <- connection_execute_and_fetch query ;;
  result <- next_or_none iterator ;;
  if truth result then getitem result retrieve
  else ret result.

Definition execute : M PyObject :=
  query <- _construct_query ;;
  fetch_results <- get _fetch_results ;;
  if fetch_results then connection_execute_and_fetch query
  else connection_execute query.

(** *** The subclasses *)

Definition QueryBuilder (connection : option Connection) : DeclarativeBase :=
  __init__ connection.

Definition Create (connection : option Connection) : DeclarativeBase :=
  append CreatePartialQuery (__init__ connection).

Definition Match (optional : bool) (connection : option Connection)
    : DeclarativeBase :=
  append (MatchPartialQuery optional) (__init__ connection).

Definition Merge (connection : option Connection) : DeclarativeBase :=
  append MergePartialQuery (__init__ connection).

Definition Call (procedure : string) (arguments : option string)
    (connection : option Connection) : DeclarativeBase :=
  append (CallPartialQuery procedure arguments) (__init__ connection).

Definition Unwind (list_expression variable : string)
    (connection : option Connection) : DeclarativeBase :=
  append (UnwindPartialQuery list_expression variable) (__init__ connection).

Definition With (results : option AliasDict) (connection : option Connection)
    : DeclarativeBase :=
  append (WithPartialQuery results) (__init__ connection).

(** *** Callers *)

(** A freshly constructed builder, nothing asked of the connection yet. *)
Definition new (o : DeclarativeBase) : World := {| self := o; trace := [] |}.

(** One call on a builder by its user. *)
Inductive Invocation : Type :=
| call_match (optional : bool)
| call_merge
| call_create
| call_call (procedure : string) (arguments : option string)
| call_node (labels : Labels) (variable : option string)
            (node : option Node) (kwargs : Properties)
| call_to (edge_label : option string) (directed : option bool)
          (variable : option string) (relationship : option Relationship)
          (kwargs : Properties)
| call_from_ (edge_label : option string) (directed : option bool)
             (variable : option string) (relationship : option Relationship)
             (kwargs : Properties)
| call_where (item operator : string) (value : Value)
| call_and_where (item operator : string) (value : Value)
| call_or_where (item operator : string) (value : Value)
| call_xor_where (property operator : string) (value : Value)
| call_unwind (list_expression variable : string)
| call_with_ (results : option AliasDict)
| call_union (include_duplicates : option bool)
| call_delete (variable_expressions : option (list string))
              (detach : option bool)
| call_remove (items : option (list string))
| call_yield_ (results : option AliasDict)
| call_return_ (results : option AliasDict)
| call_order_by (properties : string)
| call_limit (integer_expression : string)
| call_skip (integer_expression : string)
| call_add_custom_cypher (custom_cypher : string)
| call_load_csv (path : string) (header : bool) (row : string)
| call_get_single (retrieve : string)
| call_execute.

(** Forgetting what a method returned. *)
Definition void {A : Type} (m : M A) : M unit := _ <- m ;; ret tt.

Definition invoke (c : Invocation) : M unit :=
  match c with
  | call_match optional => match_ optional
  | call_merge => merge
  | call_create => create
  | call_call procedure arguments => call procedure arguments
  | call_node labels variable n kwargs => node labels variable n kwargs
  | call_to edge_label directed variable relationship kwargs =>
      to edge_label directed variable relationship kwargs
  | call_from_ edge_label directed variable relationship kwargs =>
      from_ edge_label directed variable relationship kwargs
  | call_where item operator value => where_ item operator value
  | call_and_where item operator value => and_where item operator value
  | call_or_where item operator value => or_where item operator value
  | call_xor_where property operator value => xor_where property operator value
  | call_unwind list_expression variable => unwind list_expression variable
  | call_with_ results => with_ results
  | call_union include_duplicates => union include_duplicates
  | call_delete variable_expressions detach =>
      delete variable_expressions detach
  | call_remove items => remove items
  | call_yield_ results => yield_ results
  | call_return_ results => return_ results
  | call_order_by properties => order_by properties
  | call_limit integer_expression => limit integer_expression
  | call_skip integer_expression => skip integer_expression
  | call_add_custom_cypher custom_cypher => add_custom_cypher custom_cypher
  | call_load_csv path header row => load_csv path header row
  | call_get_single retrieve => void (get_single retrieve)
  | call_execute => void execute
  end.

(** A caller that makes the calls one after the other on the same builder
    and goes on after an exception. *)
Fixpoint run (calls : list Invocation) (w : World) : World :=
  match calls with
  | [] => w
  | c :: rest => run rest (snd (invoke c w))
  end.

(** The calls that end a chain: they read the builder and add nothing. *)
Definition is_terminal_call (c : Invocation) : bool :=
  match c with
  | call_get_single _ | call_execute => true
  | _ => false
  end.

(** The chain
    [.node(labels="Person", variable="n").where("n.age", ">", 30)
     .return_({"n.name": ""}).execute()]
    on a builder; [thirty] is the value 30. *)
Definition person_chain (thirty : Value) : M PyObject :=
  node (LabelsStr "Person") (Some "n") None [] ;;
  where_ "n.age" ">" thirty ;;
  return_ (Some [("n.name", "")]) ;;
  execute.

(** [q.variable not in [None, ""]], for the partial queries with a
    [variable]; the test is reached for those of type EDGE and NODE only. *)
Definition has_variable (p : PartialQuery) : bool :=
  match p with
  | NodePartialQuery v _ _ => negb (or_empty v =? "")
  | EdgePartialQuery v _ _ _ _ => negb (or_empty v =? "")
  | UnwindPartialQuery _ v => negb (v =? "")
  | _ => false
  end.

(** The generator of [_any_variables_matched], on one partial query. *)
Definition variable_matched (p : PartialQuery) : bool :=
  ((type p =? DeclarativeBaseTypes.EDGE) || (type p =? DeclarativeBaseTypes.NODE))
  && has_variable p.

Definition any_variables_matched (q : list PartialQuery) : bool :=
  existsb variable_matched q.

Definition _any_variables_matched : M bool :=
  q <- get _query ;; ret (any_variables_matched q).


(** A caller that renders twice in a row. *)
Definition render_twice : M (string * string) :=
  first <- _construct_query ;;
  second <- _construct_query ;;
  ret (first, second).

End Builder.

(** ** An instance of the collaborators *)

(** Modelled from the spec: [gqlalchemy.utilities] ([to_cypher_labels],
    [to_cypher_properties], [to_cypher_value]) and the connection are not
    among the sources.  This instance, used to evaluate the builder on
    concrete calls, follows the examples of the specification: a label is
    written as a colon and its name, an integer in decimal, and no properties
    as the empty text.  Values are integers. *)
Definition sample_to_cypher_labels (labels : Labels) : string :=
  match labels with
  | LabelsNone => ""
  | LabelsStr s => if Str.truthy s then ":" ++ s else ""
  | LabelsList [] => ""
  | LabelsList l => ":" ++ Str.join ":" l
  end.

Definition sample_to_cypher_value (value : Z) : string :=
  NilZero.string_of_int (Z.to_int value).

Definition sample_to_cypher_properties (properties : list (string * Z)) : string :=
  match properties with
  | [] => ""
  | _ =>
      "{" ++ Str.join ", "
               (map (fun kv => fst kv ++ ": " ++ sample_to_cypher_value (snd kv))
                    properties)
          ++ "}"
  end.

#[export] Instance sample_utilities : Utilities := {|
  Value := Z;
  to_cypher_labels := sample_to_cypher_labels;
  to_cypher_properties := sample_to_cypher_properties;
  to_cypher_value := sample_to_cypher_value
|}.

(** A connection that answers every query with the same rows. *)
Definition sample_connection (answer : list (list (string * Z))) : Connection :=
  {| rows := fun _ => answer |}.

#[export] Instance sample_default : DefaultConnection :=
  {| Memgraph := sample_connection [] |}.

(** ** What the specification says, in its words *)


(** The calls that set Result-Mode: a Return clause, and a raw fragment whose
    text contains the Return keyword between spaces. *)
Definition sets_result_mode {U : Utilities} (c : Invocation) : bool :=
  match c with
  | call_return_ _ => true
  | call_add_custom_cypher custom_cypher => Str.contains " RETURN " custom_cypher
  | _ => false
  end.

(** The type a pattern call checks the last partial query against. *)
Definition linking_type {U : Utilities} (c : Invocation) : option string :=
  match c with
  | call_node _ _ _ _ => Some DeclarativeBaseTypes.NODE
  | call_to _ _ _ _ _ | call_from_ _ _ _ _ _ => Some DeclarativeBaseTypes.EDGE
  | _ => None
  end.

(** The preset builders, each with the chaining call and the partial query
    it stands for. *)
Inductive Preset : Type :=
| preset_Create
| preset_Match (optional : bool)
| preset_Merge
| preset_Call (procedure : string) (arguments : option string)
| preset_Unwind (list_expression variable : string)
| preset_With (results : option AliasDict).

Definition construct {U : Utilities} {D : DefaultConnection}
    (p : Preset) (connection : option Connection) : DeclarativeBase :=
  match p with
  | preset_Create => Create connection
  | preset_Match optional => Match optional connection
  | preset_Merge => Merge connection
  | preset_Call procedure arguments => Call procedure arguments connection
  | preset_Unwind list_expression variable =>
      Unwind list_expression variable connection
  | preset_With results => With results connection
  end.

Definition starting_call {U : Utilities} (p : Preset) : Invocation :=
  match p with
  | preset_Create => call_create
  | preset_Match optional => call_match optional
  | preset_Merge => call_merge
  | preset_Call procedure arguments => call_call procedure arguments
  | preset_Unwind list_expression variable =>
      call_unwind list_expression variable
  | preset_With results => call_with_ results
  end.

Definition starting_segment (p : Preset) : PartialQuery :=
  match p with
  | preset_Create => CreatePartialQuery
  | preset_Match optional => MatchPartialQuery optional
  | preset_Merge => MergePartialQuery
  | preset_Call procedure arguments => CallPartialQuery procedure arguments
  | preset_Unwind list_expression variable =>
      UnwindPartialQuery list_expression variable
  | preset_With results => WithPartialQuery results
  end.

(** The list of partial queries ends with one of type [t]. *)
Definition ends_with_type (t : string) (q : list PartialQuery) : Prop :=
  exists q' p, q = (q' ++ [p])%list /\ type p = t.

(** The type is one of the two that [_is_linking_valid_with_query] is asked
    about. *)
Definition is_pattern_type (t : string) : bool :=
  (t =? DeclarativeBaseTypes.NODE) || (t =? DeclarativeBaseTypes.EDGE).

(** No partial query of type NODE or EDGE directly follows one of its own
    type. *)
Fixpoint well_linked (q : list PartialQuery) : bool :=
  match q with
  | [] => true
  | p :: rest =>
      match rest with
      | [] => true
      | p' :: _ =>
          negb (is_pattern_type (type p') && (type p =? type p'))
          && well_linked rest
      end
  end.

(** The partial queries that render a keyword clause: all but the node, the
    relationship and the custom text. *)
Definition is_keyword_clause (p : PartialQuery) : bool :=
  match p with
  | NodePartialQuery _ _ _ => false
  | EdgePartialQuery _ _ _ _ _ => false
  | AddStringPartialQuery _ => false
  | _ => true
  end.

(** The text before white space is collapsed: the renderings one after the
    other. *)
Definition raw_query (q : list PartialQuery) : string :=
  Str.join "" ("" :: map construct_query q).

(** * Properties *)

(** ** Strings *)

Lemma append_assoc (a b c : string) : (a ++ b) ++ c = a ++ (b ++ c).
Proof.
  induction a as [|x a IH]; simpl; [reflexivity | now rewrite IH].
Qed.

Lemma prefix_append (n s : string) :
  prefix n s = true <-> exists b, s = n ++ b.
Proof.
  revert s; induction n as [|c n IH]; intros s.
  - split; [intros _; exists s; reflexivity | intros _; destruct s; reflexivity].
  - destruct s as [|d s]; simpl.
    + split; [discriminate | intros [b Hb]; discriminate].
    + destruct (Ascii.ascii_dec c d) as [->|Hne].
      * rewrite IH. split; intros [b Hb]; exists b.
        -- now rewrite Hb.
        -- now inversion Hb.
      * split; [discriminate | intros [b Hb]; inversion Hb; congruence].
Qed.

(** [Str.contains] decides the substring relation of Python's [in]. *)
Lemma contains_substring (n s : string) :
  Str.contains n s = true <-> exists a b, s = a ++ n ++ b.
Proof.
  induction s as [|c s IH].
  - cbn [Str.contains]. rewrite orb_false_r, prefix_append. split.
    + intros [b Hb]. exists "", b. exact Hb.
    + intros [a [b Hab]]. destruct a; [exists b; exact Hab | discriminate].
  - cbn [Str.contains]. rewrite orb_true_iff, prefix_append, IH. split.
    + intros [[b Hb] | [a [b Hab]]].
      * exists "", b. exact Hb.
      * exists (String c a), b. simpl. now rewrite Hab.
    + intros [a [b Hab]]. destruct a as [|x a].
      * left. exists b. exact Hab.
      * right. exists a, b. now inversion Hab.
Qed.

(** Where the pattern matches nowhere, the substitution changes nothing. *)
Lemma re_sub_ws_fixed (s : string) :
  Str.has_no_run s = true -> Str.re_sub_ws false s = s.
Proof.
  induction s as [|c t IH]; [reflexivity|].
  cbn [Str.has_no_run Str.re_sub_ws].
  destruct t as [|d t']; [now destruct (Str.is_space c)|].
  intros H. apply andb_true_iff in H as [Hcd Ht].
  rewrite (IH Ht).
  destruct (Str.is_space c), (Str.is_space d); try reflexivity; discriminate.
Qed.

Lemma has_no_run_cons (c d : ascii) (t : string) :
  Str.has_no_run (String c (String d t))
  = negb (Str.is_space c && Str.is_space d) && Str.has_no_run (String d t).
Proof. reflexivity. Qed.

(** After the substitution no run of two white-space characters is left;
    what follows a replaced run does not start with white space. *)
Lemma re_sub_ws_has_no_run (s : string) :
  Str.has_no_run (Str.re_sub_ws false s) = true
  /\ Str.has_no_run (Str.re_sub_ws true s) = true
  /\ Str.starts_clear (Str.re_sub_ws true s) = true.
Proof.
  induction s as [|c t (IHf & IHt & IHc)]; [repeat split|].
  cbn [Str.re_sub_ws].
  destruct (Str.is_space c) eqn:Ec.
  - split; [|split; assumption].
    destruct t as [|d t']; [reflexivity|].
    destruct (Str.is_space d) eqn:Ed.
    + cbn [Str.has_no_run]. destruct (Str.re_sub_ws true (String d t')) as [|e r];
        [reflexivity|].
      cbn [Str.starts_clear] in IHc. rewrite IHt.
      destruct (Str.is_space e); [discriminate|].
      now rewrite andb_false_r.
    + assert (E : Str.re_sub_ws false (String d t')
                  = String d (Str.re_sub_ws false t')).
      { cbn [Str.re_sub_ws]. now rewrite Ed. }
      rewrite E in IHf |- *.
      now rewrite has_no_run_cons, IHf, Ec, Ed.
  - assert (G : Str.has_no_run (String c (Str.re_sub_ws false t)) = true).
    { cbn [Str.has_no_run]. destruct (Str.re_sub_ws false t); [reflexivity|].
      now rewrite Ec, IHf. }
    split; [exact G|]. split; [exact G|]. cbn [Str.starts_clear]. now rewrite Ec.
Qed.

(** Collapsing white space a second time changes nothing. *)
Lemma collapse_whitespace_idempotent (s : string) :
  Str.collapse_whitespace (Str.collapse_whitespace s)
  = Str.collapse_whitespace s.
Proof.
  unfold Str.collapse_whitespace. apply re_sub_ws_fixed.
  apply re_sub_ws_has_no_run.
Qed.

(** The first character of the substituted text is white space exactly when
    the first character of the text is. *)
Lemma re_sub_ws_head_space (s : string) :
  Str.head_space (Str.re_sub_ws false s) = Str.head_space s.
Proof.
  destruct s as [|c t]; [reflexivity|]. cbn [Str.re_sub_ws].
  destruct (Str.is_space c) eqn:Ec.
  - destruct t as [|d t']; cbn [Str.head_space]; [now rewrite Ec|].
    destruct (Str.is_space d); cbn [Str.head_space]; now rewrite Ec.
  - cbn [Str.head_space]. now rewrite Ec.
Qed.

(** The words of a text that starts with a character that is not white
    space, from what follows the character. *)
Lemma words_cons_clear (c : ascii) (s : string) :
  Str.is_space c = false ->
  Str.words (String c s) =
  match Str.head_space s with
  | None => [String c ""]
  | Some true => String c "" :: Str.words s
  | Some false =>
      match Str.words s with
      | w :: ws => String c w :: ws
      | [] => [String c ""]
      end
  end.
Proof.
  intros Ec. cbn [Str.words]. rewrite Ec.
  destruct s as [|d t]; [reflexivity|]. cbn [Str.head_space].
  destruct (Str.is_space d); reflexivity.
Qed.

Lemma words_cons_space (c : ascii) (s : string) :
  Str.is_space c = true -> Str.words (String c s) = Str.words s.
Proof.
  intros Ec. cbn [Str.words]. now rewrite Ec.
Qed.

(** The substitution keeps the words of the text: it joins no two words and
    splits none. *)
Lemma re_sub_ws_words (s : string) :
  Str.words (Str.re_sub_ws false s) = Str.words s
  /\ Str.words (Str.re_sub_ws true s) = Str.words s.
Proof.
  induction s as [|c t [IHf IHt]]; [split; reflexivity|].
  cbn [Str.re_sub_ws].
  destruct (Str.is_space c) eqn:Ec.
  - rewrite (@words_cons_space c t Ec). split; [|exact IHt].
    destruct t as [|d t']; [now rewrite (@words_cons_space c "" Ec)|].
    destruct (Str.is_space d) eqn:Ed.
    + rewrite words_cons_space; [exact IHt | reflexivity].
    + now rewrite (@words_cons_space c _ Ec).
  - assert (G : Str.words (String c (Str.re_sub_ws false t))
                = Str.words (String c t)).
    { rewrite !(@words_cons_clear c _ Ec), re_sub_ws_head_space, IHf.
      reflexivity. }
    split; exact G.
Qed.

(** The substitution never makes a text longer. *)
Lemma re_sub_ws_length (s : string) :
  String.length (Str.re_sub_ws false s) <= String.length s
  /\ String.length (Str.re_sub_ws true s) <= String.length s.
Proof.
  induction s as [|c t [IHf IHt]]; [split; reflexivity|].
  cbn [Str.re_sub_ws].
  destruct (Str.is_space c).
  - split; [|cbn [String.length]; now apply Nat.le_le_succ_r].
    destruct t as [|d t']; [reflexivity|].
    destruct (Str.is_space d); cbn [String.length] in *;
      now apply le_n_S.
  - split; cbn [String.length]; now apply le_n_S.
Qed.

(** After a replaced run, the scan goes on as from the start of a text when
    what is left does not start with white space. *)
Lemma re_sub_ws_true_clear (s : string) :
  Str.head_space s <> Some true ->
  Str.re_sub_ws true s = Str.re_sub_ws false s.
Proof.
  destruct s as [|c t]; [reflexivity|]. cbn [Str.head_space Str.re_sub_ws].
  destruct (Str.is_space c); [intros H; now contradiction H | reflexivity].
Qed.

(** A space in front is kept, and the white space after it is dropped. *)
Lemma re_sub_ws_space_first (s : string) :
  Str.re_sub_ws false (String " " s) = String " " (Str.re_sub_ws true s).
Proof.
  cbn [Str.re_sub_ws]. change (Str.is_space " ") with true. cbv iota.
  destruct s as [|d t]; [reflexivity|].
  destruct (Str.is_space d) eqn:Ed; [reflexivity|].
  cbn [Str.re_sub_ws]. now rewrite Ed.
Qed.

(** The steps of the scan. *)
Lemma re_sub_ws_skip (c : ascii) (s : string) :
  Str.is_space c = true ->
  Str.re_sub_ws true (String c s) = Str.re_sub_ws true s.
Proof.
  intros Ec. cbn [Str.re_sub_ws]. now rewrite Ec.
Qed.

Lemma re_sub_ws_keep (in_run : bool) (c : ascii) (s : string) :
  Str.is_space c = false ->
  Str.re_sub_ws in_run (String c s) = String c (Str.re_sub_ws false s).
Proof.
  intros Ec. cbn [Str.re_sub_ws]. now rewrite Ec.
Qed.

Lemma re_sub_ws_run (c d : ascii) (s : string) :
  Str.is_space c = true -> Str.is_space d = true ->
  Str.re_sub_ws false (String c (String d s))
  = String " " (Str.re_sub_ws true s).
Proof.
  intros Ec Ed. cbn [Str.re_sub_ws]. now rewrite Ec, Ed.
Qed.

Lemma re_sub_ws_single (c : ascii) (s : string) :
  Str.is_space c = true -> Str.head_space s <> Some true ->
  Str.re_sub_ws false (String c s) = String c (Str.re_sub_ws false s).
Proof.
  intros Ec Hs. cbn [Str.re_sub_ws]. rewrite Ec.
  destruct s as [|d t]; [reflexivity|]. cbn [Str.head_space] in Hs.
  destruct (Str.is_space d); [now contradiction Hs | reflexivity].
Qed.

(** Substituting in a text that was substituted in up to some point gives
    what substituting in the whole text gives. *)
Lemma re_sub_ws_app (a b : string) :
  Str.re_sub_ws false (a ++ b) = Str.re_sub_ws false (Str.re_sub_ws false a ++ b)
  /\ Str.re_sub_ws true (a ++ b) = Str.re_sub_ws true (Str.re_sub_ws true a ++ b).
Proof.
  induction a as [|c t [IHf IHt]]; [split; reflexivity|].
  change (String c t ++ b) with (String c (t ++ b)).
  destruct (Str.is_space c) eqn:Ec.
  - split; [|now rewrite !(@re_sub_ws_skip c _ Ec)].
    destruct t as [|d t'].
    + rewrite (@re_sub_ws_single c "" Ec); [reflexivity | discriminate].
    + change (String d t' ++ b) with (String d (t' ++ b)) in *.
      destruct (Str.is_space d) eqn:Ed.
      * rewrite !(@re_sub_ws_run c d _ Ec Ed).
        change (String " " (Str.re_sub_ws true t') ++ b)
          with (String " " (Str.re_sub_ws true t' ++ b)).
        rewrite re_sub_ws_space_first.
        rewrite !(@re_sub_ws_skip d _ Ed) in IHt. now rewrite IHt.
      * rewrite (@re_sub_ws_single c (String d (t' ++ b)) Ec);
          [|cbn [Str.head_space]; rewrite Ed; discriminate].
        rewrite (@re_sub_ws_single c (String d t') Ec);
          [|cbn [Str.head_space]; rewrite Ed; discriminate].
        rewrite IHf. rewrite (@re_sub_ws_keep false d t' Ed).
        change (String c (String d (Str.re_sub_ws false t')) ++ b)
          with (String c (String d (Str.re_sub_ws false t' ++ b))).
        rewrite (@re_sub_ws_single c _ Ec);
          [reflexivity | cbn [Str.head_space]; rewrite Ed; discriminate].
  - rewrite !(@re_sub_ws_keep _ c _ Ec).
    change (String c (Str.re_sub_ws false t) ++ b)
      with (String c (Str.re_sub_ws false t ++ b)).
    rewrite !(@re_sub_ws_keep _ c _ Ec). now rewrite IHf.
Qed.

(** Joining with the empty separator is appending. *)
Lemma join_empty_app (l : list string) (x : string) :
  Str.join "" (l ++ [x])%list = Str.join "" l ++ x.
Proof.
  unfold Str.join. induction l as [|y l IH]; [reflexivity|].
  destruct l as [|z l'].
  - reflexivity.
  - change (String.concat "" ((y :: z :: l') ++ [x])%list)
      with (y ++ String.concat "" ((z :: l') ++ [x])%list).
    rewrite IH. change (String.concat "" (y :: z :: l'))
      with (y ++ String.concat "" (z :: l')).
    now rewrite append_assoc.
Qed.

(** The last character of two texts, one after the other. *)
Lemma last_char_app (a b : string) :
  Str.last_char (a ++ b) =
  match Str.last_char b with
  | None => Str.last_char a
  | Some d => Some d
  end.
Proof.
  induction a as [|c a IH]; cbn [String.append Str.last_char].
  - now destruct (Str.last_char b).
  - rewrite IH. now destruct (Str.last_char b).
Qed.

Lemma last_char_none (s : string) : Str.last_char s = None -> s = "".
Proof.
  destruct s as [|c t]; [reflexivity|]. cbn [Str.last_char].
  destruct (Str.last_char t); discriminate.
Qed.

(** A text that ends with a space still does after the substitution, unless
    the scan is in a run and the text is white space only. *)
Lemma re_sub_ws_last_space (s : string) :
  Str.last_char s = Some " "%char ->
  Str.last_char (Str.re_sub_ws false s) = Some " "%char
  /\ (Str.re_sub_ws true s = ""
      \/ Str.last_char (Str.re_sub_ws true s) = Some " "%char).
Proof.
  induction s as [|c t IH]; [discriminate|].
  cbn [Str.last_char]. destruct (Str.last_char t) as [e|] eqn:Et.
  - intros He. injection He as ->. destruct (IH eq_refl) as [IHf IHt].
    destruct (Str.is_space c) eqn:Ec.
    + rewrite (@re_sub_ws_skip c t Ec). split; [|exact IHt].
      destruct t as [|d t']; [discriminate|].
      destruct (Str.is_space d) eqn:Ed.
      * rewrite (@re_sub_ws_run c d t' Ec Ed).
        rewrite (@re_sub_ws_skip d t' Ed) in IHt.
        cbn [Str.last_char]. destruct IHt as [-> | ->]; reflexivity.
      * rewrite (@re_sub_ws_single c (String d t') Ec);
          [|cbn [Str.head_space]; rewrite Ed; discriminate].
        cbn [Str.last_char]. now rewrite IHf.
    + rewrite !(@re_sub_ws_keep _ c t Ec). cbn [Str.last_char].
      rewrite IHf. split; [reflexivity | right; reflexivity].
  - intros Hc. injection Hc as ->. apply last_char_none in Et. subst t.
    split; [reflexivity | left; reflexivity].
Qed.

(** ** Rendering of the partial queries *)

(** C4. A Node partial query renders as ["()"] when its variable, labels and
    properties are all empty; with non-empty properties, as the variable,
    the labels, exactly one space and the properties between the brackets;
    with empty properties, as the variable and the labels between the
    brackets, no space added. *)
Theorem node_rendering (_variable _labels _properties : option string) :
  let q := NodePartialQuery _variable _labels _properties in
  let variable := or_empty _variable in
  let labels := or_empty _labels in
  let properties := or_empty _properties in
  (variable = "" /\ labels = "" /\ properties = "" -> construct_query q = "()")
  /\ (properties <> "" ->
      construct_query q = "(" ++ variable ++ labels ++ " " ++ properties ++ ")")
  /\ (properties = "" -> construct_query q = "(" ++ variable ++ labels ++ ")").
Proof.
  cbv zeta. cbn [construct_query]. unfold node_construct_query.
  split; [|split].
  - intros (-> & -> & ->). reflexivity.
  - intros Hp. destruct (or_empty _properties) as [|c p]; [contradiction|].
    cbn [Str.truthy]. now rewrite !append_assoc.
  - intros ->. reflexivity.
Qed.

(** The theorem on nodes with a variable, a label and properties, with a
    variable and a label, and with nothing. *)
Lemma node_rendering_witness :
  construct_query (NodePartialQuery (Some "n") (Some ":L1") (Some "{name: 'x'}"))
    = "(n:L1 {name: 'x'})"
  /\ construct_query (NodePartialQuery (Some "n") (Some ":L1") (Some ""))
     = "(n:L1)"
  /\ construct_query (NodePartialQuery None None None) = "()".
Proof.
  split; [|split].
  - apply (node_rendering (Some "n") (Some ":L1") (Some "{name: 'x'}")).
    discriminate.
  - apply (node_rendering (Some "n") (Some ":L1") (Some "")). reflexivity.
  - apply (node_rendering None None None). repeat split.
Defined.





(** ** The builder *)

Section Properties.

Context {U : Utilities} {D : DefaultConnection}.

Lemma last_item_app (q : list PartialQuery) (p : PartialQuery) :
  last_item (q ++ [p])%list = Some p.
Proof.
  unfold last_item. now rewrite rev_unit.
Qed.

(** The types NODE and EDGE are those of the Node and Edge partial queries
    and of no other. *)
Lemma type_NODE_iff (p : PartialQuery) :
  type p = DeclarativeBaseTypes.NODE <->
  exists v l pr, p = NodePartialQuery v l pr.
Proof.
  split.
  - destruct p; try discriminate. intros _. now eexists _, _, _.
  - intros (v & l & pr & ->). reflexivity.
Qed.

Lemma type_EDGE_iff (p : PartialQuery) :
  type p = DeclarativeBaseTypes.EDGE <->
  exists v l pr d f, p = EdgePartialQuery v l pr d f.
Proof.
  split.
  - destruct p; try discriminate. intros _. now eexists _, _, _, _, _.
  - intros (v & l & pr & d & f & ->). reflexivity.
Qed.

(** The check fails exactly on a list that ends with a partial query of the
    type asked about. *)
Lemma is_linking_valid_false (t : string) (q : list PartialQuery) :
  is_linking_valid q t = false <-> ends_with_type t q.
Proof.
  unfold is_linking_valid, ends_with_type.
  induction q as [|p q' _] using rev_ind.
  - split; [discriminate|].
    intros (q' & p & H & _). now destruct q'.
  - rewrite last_item_app, length_app, Nat.add_comm. cbn [List.length Nat.add Nat.eqb orb].
    rewrite negb_false_iff, String.eqb_eq. split.
    + intros H. now exists q', p.
    + intros (q'' & p' & H & Ht). apply app_inj_tail in H as [_ ->]. exact Ht.
Qed.

Lemma is_linking_valid_true (t : string) (q : list PartialQuery) :
  is_linking_valid q t = true <-> ~ ends_with_type t q.
Proof.
  rewrite <- is_linking_valid_false. destruct (is_linking_valid q t); split;
    congruence.
Qed.

(** Unfolding the monad on a concrete method body. *)
Ltac run_method :=
  unfold invoke, node, to, from_, match_, merge, create, call, where_,
    and_where, or_where, xor_where, unwind, with_, union, delete, remove,
    yield_, return_, order_by, limit, skip, add_custom_cypher, load_csv,
    _is_linking_valid_with_query, _query_append, _fetch_results_set_true,
    bind, get, ret, raise;
  cbn [fst snd self trace _query _connection _fetch_results append negb].

Lemma linking_call_raises (c : Invocation) (t : string) (w : World) :
  linking_type c = Some t ->
  ends_with_type t (_query (self w)) ->
  invoke c w = (Raises InvalidMatchChainException, w).
Proof.
  intros Hc Hq. apply is_linking_valid_false in Hq.
  destruct c; try discriminate; injection Hc as <-;
    run_method; rewrite Hq; reflexivity.
Qed.

Lemma linking_call_appends (c : Invocation) (t : string) (w : World) :
  linking_type c = Some t ->
  ~ ends_with_type t (_query (self w)) ->
  exists p,
    type p = t /\
    invoke c w = (Returns tt, {| self := append p (self w); trace := trace w |}).
Proof.
  intros Hc Hq. apply is_linking_valid_true in Hq.
  destruct c; try discriminate; injection Hc as <-;
    run_method; rewrite Hq; cbn [negb].
  - destruct node0; eexists; (split; [|reflexivity]); reflexivity.
  - destruct relationship; eexists; (split; [|reflexivity]); reflexivity.
  - destruct relationship; eexists; (split; [|reflexivity]); reflexivity.
Qed.

(** Every other chaining call appends its partial query, whatever the list
    holds. *)
Lemma other_call_appends (c : Invocation) (w : World) :
  linking_type c = None ->
  is_terminal_call c = false ->
  exists p,
    type p <> DeclarativeBaseTypes.NODE /\
    type p <> DeclarativeBaseTypes.EDGE /\
    fst (invoke c w) = Returns tt /\
    _query (self (snd (invoke c w))) = (_query (self w) ++ [p])%list.
Proof.
  intros Hc Ht.
  destruct c; try discriminate; run_method;
    try match goal with
        | |- context [Str.contains ?n ?s] => destruct (Str.contains n s)
        end;
    eexists; refine (conj _ (conj _ (conj eq_refl eq_refl))); discriminate.
Qed.

(** C1. A [node], [to] or [from_] call raises [InvalidMatchChainException]
    exactly when the list of partial queries is not empty and its last
    element has the type of the one to be added (NODE for [node], EDGE for
    [to] and [from_], the types of the Node and Edge partial queries alone);
    it raises nothing else; when it raises, the builder is as it was, and the
    pattern call of the other type succeeds on it; when it does not raise, it
    appends one partial query of its type.  Every other chaining call appends
    its partial query on every builder. *)
Theorem linking_validation :
  (forall p, type p = DeclarativeBaseTypes.NODE <->
             exists v l pr, p = NodePartialQuery v l pr)
  /\ (forall p, type p = DeclarativeBaseTypes.EDGE <->
                exists v l pr d f, p = EdgePartialQuery v l pr d f)
  /\ (forall (c : Invocation) (w : World),
      match linking_type c with
      | Some t =>
          (fst (invoke c w) = Raises InvalidMatchChainException <->
           ends_with_type t (_query (self w)))
          /\ (forall e, fst (invoke c w) = Raises e ->
                        e = InvalidMatchChainException /\ snd (invoke c w) = w)
          /\ (~ ends_with_type t (_query (self w)) ->
              exists p,
                type p = t /\
                invoke c w =
                (Returns tt, {| self := append p (self w); trace := trace w |}))
          /\ (ends_with_type t (_query (self w)) ->
              forall c' t',
                linking_type c' = Some t' -> t' <> t ->
                fst (invoke c' (snd (invoke c w))) = Returns tt)
      | None =>
          is_terminal_call c = false ->
          exists p,
            type p <> DeclarativeBaseTypes.NODE /\
            type p <> DeclarativeBaseTypes.EDGE /\
            fst (invoke c w) = Returns tt /\
            _query (self (snd (invoke c w))) = (_query (self w) ++ [p])%list
      end).
Proof.
  split; [exact type_NODE_iff|]. split; [exact type_EDGE_iff|].
  intros c w. destruct (linking_type c) as [t|] eqn:Hc;
    [|now apply other_call_appends].
  assert (Hdec : ends_with_type t (_query (self w))
                 \/ ~ ends_with_type t (_query (self w))).
  { destruct (is_linking_valid (_query (self w)) t) eqn:E.
    - right. now apply is_linking_valid_true.
    - left. now apply is_linking_valid_false. }
  split; [split|split; [|split]].
  - intros Hr. destruct Hdec as [H|H]; [exact H|].
    destruct (linking_call_appends c w Hc H) as (p & _ & E).
    rewrite E in Hr. discriminate.
  - intros H. now rewrite (linking_call_raises c w Hc H).
  - intros e He. destruct Hdec as [H|H].
    + rewrite (linking_call_raises c w Hc H) in He |- *.
      split; [now injection He as <- | reflexivity].
    + destruct (linking_call_appends c w Hc H) as (p & _ & E).
      rewrite E in He. discriminate.
  - now apply linking_call_appends.
  - intros H c' t' Hc' Hne.
    rewrite (linking_call_raises c w Hc H). cbn [snd].
    assert (H' : ~ ends_with_type t' (_query (self w))).
    { destruct H as (q1 & p1 & E1 & T1). intros (q2 & p2 & E2 & T2).
      rewrite E1 in E2. apply app_inj_tail in E2 as [_ ->]. congruence. }
    destruct (linking_call_appends c' w Hc' H') as (p & _ & E).
    now rewrite E.
Qed.

(** *** Rendering and execution *)

(** The loop of [_construct_query] collects the renderings in order. *)
Lemma construct_loop (q : list PartialQuery) (acc : list string) :
  fold_left
    (fun query partial_query =>
       (query ++ [construct_query partial_query])%list) q acc
  = (acc ++ map construct_query q)%list.
Proof.
  revert acc. induction q as [|p q IH]; intros acc; cbn [fold_left map].
  - now rewrite app_nil_r.
  - rewrite IH, <- app_assoc. reflexivity.
Qed.

Lemma joined_query_map (q : list PartialQuery) :
  joined_query q =
  Str.collapse_whitespace (Str.join "" ("" :: map construct_query q)).
Proof.
  unfold joined_query. now rewrite construct_loop.
Qed.

Lemma _construct_query_spec (w : World) :
  _construct_query w = (Returns (joined_query (_query (self w))), w).
Proof. reflexivity. Qed.

Lemma execute_spec (w : World) :
  let query := joined_query (_query (self w)) in
  execute w =
  if _fetch_results (self w)
  then (Returns (PyIterator (rows (_connection (self w)) query)),
        {| self := self w; trace := (trace w ++ [ExecuteAndFetch query])%list |})
  else (Returns PyNone,
        {| self := self w; trace := (trace w ++ [Execute query])%list |}).
Proof.
  cbv [execute bind _construct_query get ret connection_execute_and_fetch
         connection_execute emit].
  cbn [self trace _fetch_results].
  destruct (_fetch_results (self w)); reflexivity.
Qed.

Lemma get_single_spec (retrieve : string) (w : World) :
  let query := joined_query (_query (self w)) in
  get_single retrieve w =
  match rows (_connection (self w)) query with
  | [] =>
      (Returns PyNone,
       {| self := self w;
          trace := (trace w ++ [ExecuteAndFetch query; Next])%list |})
  | [] :: _ =>
      (Returns (PyDict []),
       {| self := self w;
          trace := (trace w ++ [ExecuteAndFetch query; Next])%list |})
  | (kv :: row) :: _ =>
      (match lookup retrieve (kv :: row) with
       | Some v => Returns (PyValue v)
       | None => Raises (KeyError retrieve)
       end,
       {| self := self w;
          trace :=
            (trace w ++ [ExecuteAndFetch query; Next; GetItem retrieve])%list |})
  end.
Proof.
  cbv [get_single bind _construct_query connection_execute_and_fetch
         next_or_none getitem emit get ret raise].
  cbn [self trace].
  destruct (rows _ _) as [|[|kv row] rest]; cbn [truth List.length Nat.eqb negb];
    rewrite <- ?app_assoc; cbn [app]; [reflexivity | reflexivity |].
  destruct (lookup retrieve (kv :: row)); cbn [self trace];
    rewrite <- ?app_assoc; reflexivity.
Qed.

(** C8. Rendering returns the text of the stored partial queries and leaves
    the builder as it was, so rendering twice in a row, with no append
    between, gives the same text twice; so it is on every builder reached by
    chaining calls. *)
Theorem rendering_idempotent (w : World) :
  _construct_query w = (Returns (joined_query (_query (self w))), w)
  /\ (exists text, render_twice w = (Returns (text, text), w))
  /\ (forall (connection : option Connection) (calls : list Invocation),
      let w' := run calls (new (QueryBuilder connection)) in
      exists text, render_twice w' = (Returns (text, text), w')).
Proof.
  split; [reflexivity|]. split.
  - exists (joined_query (_query (self w))). reflexivity.
  - intros connection calls w'.
    exists (joined_query (_query (self w'))). reflexivity.
Qed.

(** *** Result mode *)

Lemma get_single_self (retrieve : string) (w : World) :
  self (snd (get_single retrieve w)) = self w.
Proof.
  rewrite get_single_spec.
  destruct (rows _ _) as [|[|kv row] rest]; reflexivity.
Qed.

Lemma execute_self (w : World) : self (snd (execute w)) = self w.
Proof.
  rewrite execute_spec. destruct (_fetch_results (self w)); reflexivity.
Qed.

Lemma void_world {A : Type} (m : M A) (w : World) :
  snd (void m w) = snd (m w).
Proof.
  unfold void, bind, ret. destruct (m w) as [[a|e] w']; reflexivity.
Qed.

(** One call leaves the flag as it was, or sets it when it is a call that
    sets the result mode. *)
Lemma invoke_fetch_results (c : Invocation) (w : World) :
  _fetch_results (self (snd (invoke c w))) =
  _fetch_results (self w) || sets_result_mode c.
Proof.
  destruct c; cbn [sets_result_mode invoke];
    try (rewrite void_world, ?get_single_self, ?execute_self;
         now rewrite orb_false_r);
    run_method; rewrite ?orb_false_r, ?orb_true_r; try reflexivity.
  - destruct (is_linking_valid _ _); cbn [negb snd self]; [|reflexivity].
    destruct node0; reflexivity.
  - destruct (is_linking_valid _ _); cbn [negb snd self]; [|reflexivity].
    destruct relationship; reflexivity.
  - destruct (is_linking_valid _ _); cbn [negb snd self]; [|reflexivity].
    destruct relationship; reflexivity.
  - destruct (Str.contains _ _); cbn [snd self _fetch_results];
      now rewrite ?orb_false_r, ?orb_true_r.
Qed.

Lemma run_fetch_results (calls : list Invocation) (w : World) :
  _fetch_results (self (run calls w)) =
  _fetch_results (self w) || existsb sets_result_mode calls.
Proof.
  revert w. induction calls as [|c calls IH]; intros w; cbn [run existsb].
  - now rewrite orb_false_r.
  - now rewrite IH, invoke_fetch_results, orb_assoc.
Qed.

(** C3, as the code has it.  The flag [_fetch_results] is false in a new
    builder; [return_] sets it, [add_custom_cypher] sets it when the text
    contains the Return keyword in upper case with a space on each side,
    and a call leaves it as it was otherwise; so after any sequence of calls
    the flag is true exactly when it was true before or one of the calls set
    it, and once true it stays true. *)
Theorem result_mode_monotone :
  (forall connection, _fetch_results (QueryBuilder connection) = false)
  /\ (forall results w,
      _fetch_results (self (snd (return_ results w))) = true)
  /\ (forall custom_cypher w,
      (exists a b, custom_cypher = a ++ " RETURN " ++ b) ->
      _fetch_results (self (snd (add_custom_cypher custom_cypher w))) = true)
  /\ (forall c w,
      _fetch_results (self (snd (invoke c w))) =
      _fetch_results (self w) || sets_result_mode c)
  /\ (forall calls w,
      _fetch_results (self (run calls w)) =
      _fetch_results (self w) || existsb sets_result_mode calls)
  /\ (forall calls w,
      _fetch_results (self w) = true ->
      _fetch_results (self (run calls w)) = true).
Proof.
  split; [reflexivity|]. split; [reflexivity|]. split.
  { intros s w Hs. apply contains_substring in Hs.
    pose proof (invoke_fetch_results (call_add_custom_cypher s) w) as H.
    cbn [invoke sets_result_mode] in H. now rewrite H, Hs, orb_true_r. }
  split; [exact invoke_fetch_results|]. split; [exact run_fetch_results|].
  intros calls w H. now rewrite run_fetch_results, H.
Qed.

(** *** The preset builders *)

(** C9. A preset builder is the empty builder after one call of its chaining
    method with the same arguments: it holds that one partial query, its
    flag is false, its connection is the one given, and whatever is called
    on it next does what it does on the base builder after that call. *)
Theorem preset_builders (p : Preset) (connection : option Connection) :
  invoke (starting_call p) (new (QueryBuilder connection))
    = (Returns tt, new (construct p connection))
  /\ _query (construct p connection) = [starting_segment p]
  /\ _fetch_results (construct p connection) = false
  /\ _connection (construct p connection)
     = _connection (QueryBuilder connection)
  /\ (forall calls,
      run calls (new (construct p connection))
      = run (starting_call p :: calls) (new (QueryBuilder connection)))
  /\ (forall (A : Type) (m : M A),
      m (new (construct p connection))
      = m (snd (invoke (starting_call p) (new (QueryBuilder connection)))))
  /\ joined_query (_query (construct p connection))
     = Str.collapse_whitespace (construct_query (starting_segment p)).
Proof.
  destruct p; repeat split; reflexivity.
Qed.

(** *** get_single *)

(** C7. [get_single] calls [execute_and_fetch] on the connection with the
    rendered text, whatever the flag is, and never [execute]; it asks the
    iterator for one row, once; with no row it returns [None] and raises
    nothing; with a first row that holds the field it returns the value
    there.  The builder is left as it was. *)
Theorem get_single_streams (retrieve : string) (w : World) :
  let query := joined_query (_query (self w)) in
  let pending := rows (_connection (self w)) query in
  let r := get_single retrieve w in
  self (snd r) = self w
  /\ (exists subscripts,
      trace (snd r)
      = (trace w ++ ExecuteAndFetch query :: Next :: subscripts)%list
      /\ (subscripts = [] \/ subscripts = [GetItem retrieve]))
  /\ (pending = [] -> fst r = Returns PyNone)
  /\ (forall row rest v,
      pending = row :: rest -> lookup retrieve row = Some v ->
      fst r = Returns (PyValue v)).
Proof.
  cbv zeta. rewrite get_single_spec. cbv zeta.
  destruct (rows _ _) as [|[|kv row] rest]; cbn [fst snd self trace].
  - split; [reflexivity|]. split; [exists []; auto|].
    split; [reflexivity|]. intros; discriminate.
  - split; [reflexivity|]. split; [exists []; auto|].
    split; [discriminate|]. intros row' rest' v E H.
    injection E as <- <-. discriminate.
  - split; [reflexivity|]. split; [exists [GetItem retrieve]; auto|].
    split; [discriminate|]. intros row' rest' v E H.
    injection E as <- <-. now rewrite H.
Qed.

(** C10. When the first row fetched is the empty dictionary, [get_single]
    returns that dictionary and does not subscript it; it subscripts the
    first row, once and with the field, exactly when there is a first row
    and it is not empty. *)
Theorem get_single_empty_row (retrieve : string) (w : World) :
  let query := joined_query (_query (self w)) in
  let pending := rows (_connection (self w)) query in
  let r := get_single retrieve w in
  (forall rest,
      pending = [] :: rest ->
      r = (Returns (PyDict []),
           {| self := self w;
              trace := (trace w ++ [ExecuteAndFetch query; Next])%list |}))
  /\ ((exists row rest, pending = row :: rest /\ row <> []) ->
      trace (snd r)
      = (trace w ++ [ExecuteAndFetch query; Next; GetItem retrieve])%list)
  /\ (~ (exists row rest, pending = row :: rest /\ row <> []) ->
      trace (snd r) = (trace w ++ [ExecuteAndFetch query; Next])%list).
Proof.
  cbv zeta. rewrite get_single_spec. cbv zeta.
  destruct (rows _ _) as [|[|kv row] rest]; cbn [fst snd self trace].
  - split; [intros; discriminate|]. split; [|reflexivity].
    intros (row & rest & E & _). discriminate.
  - split; [reflexivity|]. split; [|reflexivity].
    intros (row & rest' & E & Hne). injection E as <- <-. contradiction.
  - split; [intros; discriminate|]. split; [reflexivity|].
    intros H. exfalso. apply H. exists (kv :: row), rest.
    split; [reflexivity | discriminate].
Qed.

(** *** The end-to-end example *)

(** The example chain on [Match()], step by step: four partial queries,
    the flag set, and one call of [execute_and_fetch]. *)
Lemma person_chain_spec (connection : option Connection) (thirty : Value) :
  let q :=
    [MatchPartialQuery false;
     NodePartialQuery (Some "n")
       (Some (to_cypher_labels (LabelsStr "Person")))
       (Some (to_cypher_properties []));
     WhereConditionPartialQuery WhereConditionConstants.WHERE
       (condition "n.age" ">" thirty);
     ReturnPartialQuery (Some [("n.name", "")])] in
  let c := _connection (__init__ connection) in
  person_chain thirty (new (Match false connection))
  = (Returns (PyIterator (rows c (joined_query q))),
     {| self := {| _query := q; _connection := c; _fetch_results := true |};
        trace := [ExecuteAndFetch (joined_query q)] |}).
Proof.
  reflexivity.
Qed.

(** A text that starts with the Match clause keeps its first space. *)
Lemma joined_query_match_first (q : list PartialQuery) :
  exists rest, joined_query (MatchPartialQuery false :: q) = String " " rest.
Proof.
  rewrite joined_query_map. cbn [map construct_query].
  unfold Str.join, Str.collapse_whitespace.
  destruct (map construct_query q) as [|x xs];
    cbn [String.concat append Str.re_sub_ws];
    change (Str.is_space " ") with true; change (Str.is_space "M") with false;
    cbv iota; eexists; reflexivity.
Qed.

(** Whatever the serialization functions write, the example chain does not
    render to the text without the space in front. *)
Lemma person_chain_leading_space (connection : option Connection)
    (thirty : Value) :
  joined_query
    (_query (self (snd (person_chain thirty (new (Match false connection))))))
  <> "MATCH (n:Person) WHERE n.age > 30 RETURN n.name".
Proof.
  rewrite person_chain_spec. cbn [snd self _query].
  destruct (joined_query_match_first
              [NodePartialQuery (Some "n")
                 (Some (to_cypher_labels (LabelsStr "Person")))
                 (Some (to_cypher_properties []));
               WhereConditionPartialQuery WhereConditionConstants.WHERE
                 (condition "n.age" ">" thirty);
               ReturnPartialQuery (Some [("n.name", "")])]) as [rest ->].
  discriminate.
Qed.

(** C2, as the code has it.  With a label written as a colon and its name,
    no properties as the empty text and 30 as its decimal, the chain on the
    preset builder [Match()], which is the base builder after [match()],
    renders to the text of the example with one space before it and one
    after it, and [execute] hands that text to [execute_and_fetch] and
    returns its iterator. *)
Theorem person_chain_renders (connection : option Connection) (thirty : Value) :
  to_cypher_labels (LabelsStr "Person") = ":Person" ->
  to_cypher_properties [] = "" ->
  to_cypher_value thirty = "30" ->
  let text := " MATCH (n:Person) WHERE n.age > 30 RETURN n.name " in
  let r := person_chain thirty (new (Match false connection)) in
  snd (match_ false (new (QueryBuilder connection)))
    = new (Match false connection)
  /\ joined_query (_query (self (snd r))) = text
  /\ fst r
     = Returns (PyIterator (rows (_connection (Match false connection)) text))
  /\ trace (snd r) = [ExecuteAndFetch text].
Proof.
  intros Hlabels Hproperties Hvalue. cbv zeta.
  split; [reflexivity|].
  rewrite person_chain_spec. cbn [fst snd self trace _query].
  unfold condition. rewrite Hlabels, Hproperties, Hvalue.
  repeat split.
Qed.

(** ** Further properties of the builder *)

(** *** The rendered text *)

Lemma joined_query_raw (q : list PartialQuery) :
  joined_query q = Str.collapse_whitespace (raw_query q).
Proof.
  exact (joined_query_map q).
Qed.

(** X1. The text [_construct_query] returns holds no two white-space
    characters in a row, whatever the partial queries hold, and collapsing
    it again changes nothing. *)
Theorem rendered_text_has_no_run (q : list PartialQuery) :
  Str.has_no_run (joined_query q) = true
  /\ Str.collapse_whitespace (joined_query q) = joined_query q.
Proof.
  rewrite joined_query_raw. split.
  - apply re_sub_ws_has_no_run.
  - apply collapse_whitespace_idempotent.
Qed.

(** X2. The text [_construct_query] returns has the words of the renderings
    written one after the other, in the same order: collapsing white space
    joins no two words and splits none; and it is not longer. *)
Theorem rendered_text_words (q : list PartialQuery) :
  Str.words (joined_query q) = Str.words (raw_query q)
  /\ String.length (joined_query q) <= String.length (raw_query q).
Proof.
  rewrite joined_query_raw. split.
  - apply re_sub_ws_words.
  - apply re_sub_ws_length.
Qed.

Lemma raw_query_app_one (q : list PartialQuery) (p : PartialQuery) :
  raw_query (q ++ [p])%list = raw_query q ++ construct_query p.
Proof.
  unfold raw_query. rewrite map_app. cbn [map].
  change ("" :: (map construct_query q ++ [construct_query p])%list)
    with (("" :: map construct_query q) ++ [construct_query p])%list.
  apply join_empty_app.
Qed.

(** X3. The text after one more partial query is the text before it with
    the rendering of the new one appended, white space collapsed again. *)
Theorem rendered_text_incremental (q : list PartialQuery) (p : PartialQuery) :
  joined_query (q ++ [p])%list
  = Str.collapse_whitespace (joined_query q ++ construct_query p).
Proof.
  rewrite !joined_query_raw, raw_query_app_one.
  unfold Str.collapse_whitespace. apply re_sub_ws_app.
Qed.

(** *** The list of partial queries under calls *)

Lemma ends_with_type_dec (t : string) (q : list PartialQuery) :
  ends_with_type t q \/ ~ ends_with_type t q.
Proof.
  destruct (is_linking_valid q t) eqn:E.
  - right. now apply is_linking_valid_true.
  - left. now apply is_linking_valid_false.
Qed.

Lemma linking_type_pattern (c : Invocation) (t : string) :
  linking_type c = Some t -> is_pattern_type t = true.
Proof.
  destruct c; try discriminate; intros H; injection H as <-; reflexivity.
Qed.

Lemma terminal_call_self (c : Invocation) (w : World) :
  is_terminal_call c = true -> self (snd (invoke c w)) = self w.
Proof.
  destruct c; try discriminate; intros _; cbn [invoke];
    rewrite void_world; [apply get_single_self | apply execute_self].
Qed.

(** What one call does to the list: nothing, or one partial query more,
    which is not of a pattern type or passed the check. *)
Lemma invoke_query (c : Invocation) (w : World) :
  _query (self (snd (invoke c w))) = _query (self w)
  \/ exists p,
       _query (self (snd (invoke c w))) = (_query (self w) ++ [p])%list
       /\ (is_pattern_type (type p) = false
           \/ is_linking_valid (_query (self w)) (type p) = true).
Proof.
  destruct (linking_type c) as [t|] eqn:Hc.
  - destruct (ends_with_type_dec t (_query (self w))) as [H|H].
    + left. now rewrite (linking_call_raises c w Hc H).
    + right. destruct (linking_call_appends c w Hc H) as (p & Hp & E).
      exists p. rewrite E. split; [reflexivity|].
      right. rewrite Hp. now apply is_linking_valid_true.
  - destruct (is_terminal_call c) eqn:Ht.
    + left. now rewrite terminal_call_self.
    + right. destruct (other_call_appends c w Hc Ht) as (p & Hn & He & _ & E).
      exists p. split; [exact E|]. left. unfold is_pattern_type.
      apply String.eqb_neq in Hn, He. now rewrite Hn, He.
Qed.

Lemma invoke_connection (c : Invocation) (w : World) :
  _connection (self (snd (invoke c w))) = _connection (self w).
Proof.
  destruct (linking_type c) as [t|] eqn:Hc.
  - destruct (ends_with_type_dec t (_query (self w))) as [H|H].
    + now rewrite (linking_call_raises c w Hc H).
    + destruct (linking_call_appends c w Hc H) as (p & _ & E).
      now rewrite E.
  - destruct (is_terminal_call c) eqn:Ht.
    + now rewrite terminal_call_self.
    + destruct c; try discriminate; run_method;
        try match goal with
            | |- context [Str.contains ?n ?s] => destruct (Str.contains n s)
            end; reflexivity.
Qed.

Lemma run_connection (calls : list Invocation) (w : World) :
  _connection (self (run calls w)) = _connection (self w).
Proof.
  revert w. induction calls as [|c calls IH]; intros w; cbn [run].
  - reflexivity.
  - now rewrite IH, invoke_connection.
Qed.

Lemma run_query_suffix (calls : list Invocation) (w : World) :
  exists suffix,
    _query (self (run calls w)) = (_query (self w) ++ suffix)%list
    /\ List.length suffix <= List.length calls.
Proof.
  revert w. induction calls as [|c calls IH]; intros w; cbn [run].
  - exists []. now rewrite app_nil_r.
  - destruct (IH (snd (invoke c w))) as (suffix & E & L).
    destruct (invoke_query c w) as [H|(p & H & _)]; rewrite H in E.
    + exists suffix. split; [exact E|]. cbn [List.length].
      now apply Nat.le_le_succ_r.
    + exists (p :: suffix). rewrite <- app_assoc in E. split; [exact E|].
      cbn [List.length]. now apply le_n_S.
Qed.

(** X4. A builder only ever grows at the end: after any calls the list of
    partial queries is the list before them followed by at most one partial
    query per call, and the connection is the same. *)
Theorem query_append_only (calls : list Invocation) (w : World) :
  (exists suffix,
      _query (self (run calls w)) = (_query (self w) ++ suffix)%list
      /\ List.length suffix <= List.length calls)
  /\ _connection (self (run calls w)) = _connection (self w).
Proof.
  split; [apply run_query_suffix | apply run_connection].
Qed.

Lemma invoke_trace (c : Invocation) (w : World) :
  is_terminal_call c = false -> trace (snd (invoke c w)) = trace w.
Proof.
  intros Ht. destruct (linking_type c) as [t|] eqn:Hc.
  - destruct (ends_with_type_dec t (_query (self w))) as [H|H].
    + now rewrite (linking_call_raises c w Hc H).
    + destruct (linking_call_appends c w Hc H) as (p & _ & E).
      now rewrite E.
  - destruct c; try discriminate; run_method;
      try match goal with
          | |- context [Str.contains ?n ?s] => destruct (Str.contains n s)
          end; reflexivity.
Qed.

(** X5. Building a query asks nothing of the connection: calls other than
    [execute] and [get_single] leave the log of calls on the collaborators
    as it was. *)
Theorem chaining_is_silent (calls : list Invocation) (w : World) :
  forallb (fun c => negb (is_terminal_call c)) calls = true ->
  trace (run calls w) = trace w.
Proof.
  revert w. induction calls as [|c calls IH]; intros w H; cbn [run].
  - reflexivity.
  - cbn [forallb] in H. apply andb_true_iff in H as [Hc H].
    apply negb_true_iff in Hc. now rewrite (IH _ H), invoke_trace.
Qed.

(** *** The linking check along a chain *)

Lemma last_item_cons (a : PartialQuery) (q : list PartialQuery) :
  last_item (a :: q) =
  match last_item q with Some p => Some p | None => Some a end.
Proof.
  unfold last_item. cbn [rev]. destruct (rev q); reflexivity.
Qed.

Lemma is_linking_valid_last (q : list PartialQuery) (t : string) :
  is_linking_valid q t =
  match last_item q with Some p => negb (type p =? t) | None => true end.
Proof.
  unfold is_linking_valid. destruct q as [|a q]; [reflexivity|].
  cbn [List.length Nat.eqb orb]. rewrite last_item_cons.
  destruct (last_item q); reflexivity.
Qed.

Lemma well_linked_app_one (q : list PartialQuery) (p : PartialQuery) :
  well_linked (q ++ [p])%list =
  well_linked q
  && (negb (is_pattern_type (type p)) || is_linking_valid q (type p)).
Proof.
  rewrite is_linking_valid_last.
  induction q as [|a q IH]; [cbn; now rewrite orb_true_r|].
  destruct q as [|b q'].
  - cbn [app well_linked last_item rev]. rewrite andb_true_r.
    cbn [andb]. destruct (is_pattern_type (type p)), (type a =? type p);
      reflexivity.
  - change (well_linked ((a :: b :: q') ++ [p])%list)
      with (negb (is_pattern_type (type b) && (type a =? type b))
            && well_linked ((b :: q') ++ [p])%list).
    rewrite IH.
    change (well_linked (a :: b :: q'))
      with (negb (is_pattern_type (type b) && (type a =? type b))
            && well_linked (b :: q')).
    rewrite (last_item_cons a (b :: q')), (last_item_cons b q').
    rewrite andb_assoc. destruct (last_item q'); reflexivity.
Qed.

Lemma invoke_well_linked (c : Invocation) (w : World) :
  well_linked (_query (self w)) = true ->
  well_linked (_query (self (snd (invoke c w)))) = true.
Proof.
  intros H. destruct (invoke_query c w) as [E|(p & E & Hp)]; rewrite E.
  - exact H.
  - rewrite well_linked_app_one, H. destruct Hp as [-> | ->];
      [reflexivity | apply orb_true_r].
Qed.

Lemma run_well_linked (calls : list Invocation) (w : World) :
  well_linked (_query (self w)) = true ->
  well_linked (_query (self (run calls w))) = true.
Proof.
  revert w. induction calls as [|c calls IH]; intros w H; cbn [run].
  - exact H.
  - apply IH. now apply invoke_well_linked.
Qed.

(** X6. In a builder made by [QueryBuilder] or by a preset builder and
    whatever calls, no partial query of type NODE directly follows one of
    type NODE and none of type EDGE one of type EDGE. *)
Theorem patterns_never_adjacent (calls : list Invocation)
    (connection : option Connection) :
  well_linked (_query (self (run calls (new (QueryBuilder connection))))) = true
  /\ (forall p : Preset,
      well_linked (_query (self (run calls (new (construct p connection)))))
      = true).
Proof.
  split; [|intros p]; apply run_well_linked; [reflexivity|].
  destruct p; reflexivity.
Qed.

Lemma linking_call_raises_iff (c : Invocation) (t : string) (w : World) :
  linking_type c = Some t ->
  fst (invoke c w) = Raises InvalidMatchChainException <->
  ends_with_type t (_query (self w)).
Proof.
  intros Hc. split.
  - intros Hr. destruct (ends_with_type_dec t (_query (self w))) as [H|H];
      [exact H|].
    destruct (linking_call_appends c w Hc H) as (p & _ & E).
    rewrite E in Hr. discriminate.
  - intros H. now rewrite (linking_call_raises c w Hc H).
Qed.

Lemma ends_with_type_app_one (t : string) (q : list PartialQuery)
    (p : PartialQuery) :
  ends_with_type t (q ++ [p])%list <-> type p = t.
Proof.
  split.
  - intros (q' & p' & E & T). apply app_inj_tail in E as [_ ->]. exact T.
  - intros T. now exists q, p.
Qed.

(** X7. After a chaining call that returned, a pattern call ([node], [to]
    or [from_]) raises exactly when that call was a pattern call of the same
    type: the check looks at the last partial query only, so any other
    clause between two nodes, or two relationships, lets the second one
    pass. *)
Theorem linking_after_call (c c' : Invocation) (t' : string) (w : World) :
  is_terminal_call c = false ->
  fst (invoke c w) = Returns tt ->
  linking_type c' = Some t' ->
  fst (invoke c' (snd (invoke c w))) = Raises InvalidMatchChainException <->
  linking_type c = Some t'.
Proof.
  intros Ht Hr Hc'. rewrite (linking_call_raises_iff _ _ Hc').
  destruct (linking_type c) as [t|] eqn:Hc.
  - destruct (ends_with_type_dec t (_query (self w))) as [H|H].
    + rewrite (linking_call_raises c w Hc H) in Hr. discriminate.
    + destruct (linking_call_appends c w Hc H) as (p & Hp & E).
      rewrite E. cbn [snd self append _query].
      rewrite ends_with_type_app_one, Hp. split; congruence.
  - destruct (other_call_appends c w Hc Ht) as (p & Hn & He & _ & E).
    rewrite E, ends_with_type_app_one. split; [|discriminate].
    intros Hp. apply linking_type_pattern in Hc'. unfold is_pattern_type in Hc'.
    rewrite <- Hp in Hc'. apply String.eqb_neq in Hn, He.
    rewrite Hn, He in Hc'. discriminate.
Qed.

(** *** Execution of a built query *)

(** X8. [execute] on a builder made by [QueryBuilder] and whatever calls
    hands the rendered text to [execute_and_fetch] and returns its iterator
    when one of the calls was [return_] or an [add_custom_cypher] whose text
    holds [" RETURN "]; otherwise it hands the text to [execute] and returns
    [None], also when the query ends in a Yield or With clause. *)
Theorem execute_mode (calls : list Invocation) (connection : option Connection) :
  let w := run calls (new (QueryBuilder connection)) in
  let text := joined_query (_query (self w)) in
  execute w =
  if existsb sets_result_mode calls
  then (Returns (PyIterator (rows (_connection (QueryBuilder connection)) text)),
        {| self := self w;
           trace := (trace w ++ [ExecuteAndFetch text])%list |})
  else (Returns PyNone,
        {| self := self w; trace := (trace w ++ [Execute text])%list |}).
Proof.
  cbv zeta. rewrite execute_spec. cbv zeta.
  rewrite run_fetch_results. cbn [new self QueryBuilder __init__ _fetch_results orb].
  destruct (existsb sets_result_mode calls); [|reflexivity].
  now rewrite run_connection.
Qed.


(** X10. When the first row fetched is not empty and does not hold the
    field, [get_single] raises [KeyError] for the field, after one call of
    [execute_and_fetch], one [next] and the subscript; the builder is left
    as it was. *)
Theorem get_single_missing_field (retrieve : string) (w : World)
    (row : Row) (rest : list Row) :
  let query := joined_query (_query (self w)) in
  rows (_connection (self w)) query = row :: rest ->
  row <> [] ->
  lookup retrieve row = None ->
  get_single retrieve w
  = (Raises (KeyError retrieve),
     {| self := self w;
        trace :=
          (trace w ++ [ExecuteAndFetch query; Next; GetItem retrieve])%list |}).
Proof.
  cbv zeta. intros Hrows Hrow Hlookup. rewrite get_single_spec. cbv zeta.
  rewrite Hrows. destruct row as [|kv row']; [contradiction|].
  now rewrite Hlookup.
Qed.

(** *** Pattern calls *)


(** X12. A relationship that is not directed is written the same by [to]
    and by [from_]: the two calls end the same way, and the texts of the two
    builders are equal. *)
Theorem undirected_to_from (edge_label : option string) (directed : option bool)
    (variable : option string) (relationship : option Relationship)
    (kwargs : Properties) (w : World) :
  py_bool directed = false ->
  let a := to edge_label directed variable relationship kwargs w in
  let b := from_ edge_label directed variable relationship kwargs w in
  fst a = fst b
  /\ joined_query (_query (self (snd a))) = joined_query (_query (self (snd b))).
Proof.
  intros Hd. cbv zeta. run_method. rewrite Hd.
  destruct (is_linking_valid _ _); cbn [negb]; [|split; reflexivity].
  destruct relationship; cbn [fst snd self _query append];
    (split; [reflexivity|]);
    rewrite !joined_query_map, !map_app; reflexivity.
Qed.

(** *** _any_variables_matched *)

Lemma variable_matched_iff (p : PartialQuery) :
  variable_matched p = true <->
  (exists v l pr, p = NodePartialQuery v l pr /\ or_empty v <> "")
  \/ (exists v l pr d f, p = EdgePartialQuery v l pr d f /\ or_empty v <> "").
Proof.
  unfold variable_matched. split.
  - destruct p; try discriminate; cbn [type has_variable];
      intros H; apply andb_true_iff in H as [_ H];
      apply negb_true_iff, String.eqb_neq in H.
    + left. now eexists _, _, _.
    + right. now eexists _, _, _, _, _.
  - intros [(v & l & pr & -> & H) | (v & l & pr & d & f & -> & H)];
      cbn [type has_variable]; apply String.eqb_neq in H; now rewrite H.
Qed.

(** X13. [_any_variables_matched] reads the builder and changes nothing; it
    answers true exactly when some Node or Edge partial query has a variable
    that is not empty; it is false for a new builder, and once true it stays
    true through whatever calls follow. *)
Theorem any_variables_matched_spec (w : World) :
  _any_variables_matched w
  = (Returns (any_variables_matched (_query (self w))), w)
  /\ (any_variables_matched (_query (self w)) = true <->
      exists p,
        In p (_query (self w))
        /\ ((exists v l pr, p = NodePartialQuery v l pr /\ or_empty v <> "")
            \/ (exists v l pr d f,
                   p = EdgePartialQuery v l pr d f /\ or_empty v <> "")))
  /\ (forall connection,
      any_variables_matched (_query (QueryBuilder connection)) = false)
  /\ (forall calls,
      any_variables_matched (_query (self w)) = true ->
      any_variables_matched (_query (self (run calls w))) = true).
Proof.
  split; [reflexivity|]. split; [|split; [reflexivity|]].
  - unfold any_variables_matched. rewrite existsb_exists.
    split; intros (p & Hin & H); exists p; (split; [exact Hin|]);
      now apply variable_matched_iff.
  - intros calls H.
    destruct (run_query_suffix calls w) as (suffix & E & _).
    unfold any_variables_matched in *. rewrite E, existsb_app, H. reflexivity.
Qed.

(** *** Spaces around the text *)

Lemma concat_empty_cons (x : string) (l : list string) :
  String.concat "" (x :: l) = x ++ String.concat "" l.
Proof.
  destruct l as [|y l]; [|reflexivity]. cbn [String.concat].
  induction x as [|c x IH]; [reflexivity|].
  cbn [String.append]. now rewrite <- IH.
Qed.

Lemma raw_query_cons (p : PartialQuery) (q : list PartialQuery) :
  raw_query (p :: q) = construct_query p ++ raw_query q.
Proof.
  unfold raw_query, Str.join. cbn [map].
  now rewrite !(concat_empty_cons ""), concat_empty_cons.
Qed.

(** A keyword clause is rendered with a space in front and a space at the
    end. *)
Lemma keyword_clause_spaces (p : PartialQuery) :
  is_keyword_clause p = true ->
  (exists body, construct_query p = String " " body)
  /\ Str.last_char (construct_query p) = Some " "%char.
Proof.
  destruct p; try discriminate; intros _; cbn [construct_query];
    unfold alias_query;
    repeat match goal with
           | |- context [if ?b then _ else _] => destruct b
           end;
    (split; [eexists; reflexivity | rewrite ?last_char_app; reflexivity]).
Qed.

(** X14. The text is not stripped: when the first partial query is a
    keyword clause the text starts with a space, and when the last one is a
    keyword clause the text ends with a space. *)
Theorem rendered_text_outer_spaces (p : PartialQuery) (q : list PartialQuery) :
  is_keyword_clause p = true ->
  (exists rest, joined_query (p :: q) = String " " rest)
  /\ Str.last_char (joined_query (q ++ [p])%list) = Some " "%char.
Proof.
  intros Hp. destruct (keyword_clause_spaces p Hp) as [[body Hb] Hl]. split.
  - rewrite joined_query_raw, raw_query_cons, Hb.
    unfold Str.collapse_whitespace.
    change (String " " body ++ raw_query q)
      with (String " " (body ++ raw_query q)).
    rewrite re_sub_ws_space_first. now eexists.
  - rewrite joined_query_raw, raw_query_app_one.
    unfold Str.collapse_whitespace. apply re_sub_ws_last_space.
    now rewrite last_char_app, Hl.
Qed.

End Properties.

(** ** The theorems on concrete calls *)

(** Two [node] calls in a row: the second raises and leaves the builder as
    it was, and a [to] call then succeeds on it. *)
Lemma linking_validation_witness :
  let w :=
    run [call_match false; call_node (LabelsStr "Person") (Some "n") None []]
        (new (QueryBuilder None)) in
  let second := call_node (LabelsStr "City") (Some "m") None [] in
  let third := call_to (Some "LIVES_IN") (Some true) None None [] in
  (fst (invoke second w) = Raises InvalidMatchChainException
   /\ snd (invoke second w) = w)
  /\ fst (invoke third (snd (invoke second w))) = Returns tt.
Proof.
  cbv zeta.
  set (w := run _ _).
  set (second := call_node (LabelsStr "City") (Some "m") None []).
  pose proof (proj2 (proj2 linking_validation) second w) as H.
  cbn [linking_type second] in H.
  destruct H as (Hiff & Hraises & _ & Hrecover).
  assert (Hend : ends_with_type DeclarativeBaseTypes.NODE (_query (self w))).
  { exists [MatchPartialQuery false],
      (NodePartialQuery (Some "n") (Some ":Person") (Some "")).
    split; reflexivity. }
  split.
  - split; [now apply Hiff|]. apply (Hraises InvalidMatchChainException).
    now apply Hiff.
  - apply (Hrecover Hend _ DeclarativeBaseTypes.EDGE); [reflexivity|].
    discriminate.
Defined.

(** After a Return clause the flag stays set through the calls that follow. *)
Lemma result_mode_monotone_witness :
  let w := run [call_match false; call_return_ None] (new (QueryBuilder None)) in
  _fetch_results (self w) = true
  /\ _fetch_results
       (self (run [call_order_by "n.name"; call_limit "1"; call_execute] w))
     = true.
Proof.
  cbv zeta. split; [reflexivity|].
  apply (proj2 (proj2 (proj2 (proj2 (proj2 result_mode_monotone))))).
  reflexivity.
Defined.

(** [get_single] on a connection that yields no row, and on one that yields
    a row with the field, with the flag false. *)
Lemma get_single_streams_witness :
  let none := new (Match false (Some (sample_connection []))) in
  let one := new (Match false (Some (sample_connection [[("n.age", 30%Z)]]))) in
  fst (get_single "n.age" none) = Returns PyNone
  /\ fst (get_single "n.age" one) = Returns (PyValue (30%Z : Value)).
Proof.
  cbv zeta. split.
  - apply (get_single_streams "n.age"
             (new (Match false (Some (sample_connection []))))).
    reflexivity.
  - pose proof (get_single_streams "n.age"
                  (new (Match false
                          (Some (sample_connection [[("n.age", 30%Z)]])))))
      as H.
    cbv zeta in H. destruct H as (_ & _ & _ & H).
    apply (H [("n.age", 30%Z)] []); reflexivity.
Defined.

(** [get_single] on a connection whose first row is empty. *)
Lemma get_single_empty_row_witness :
  let w := new (Match false (Some (sample_connection [[]; [("n.age", 30%Z)]]))) in
  get_single "n.age" w
  = (Returns (PyDict []),
     {| self := self w;
        trace := [ExecuteAndFetch " MATCH "; Next] |}).
Proof.
  cbv zeta.
  apply (proj1
           (get_single_empty_row "n.age"
              (new (Match false
                      (Some (sample_connection [[]; [("n.age", 30%Z)]])))))
           [[("n.age", 30%Z)]]).
  reflexivity.
Defined.

(** The example chain, with the sample collaborators. *)
Lemma person_chain_renders_witness :
  let text := " MATCH (n:Person) WHERE n.age > 30 RETURN n.name " in
  let r := @person_chain sample_utilities 30%Z (new (Match false None)) in
  joined_query (_query (self (snd r))) = text
  /\ fst r = Returns (PyIterator (rows (_connection (Match false None)) text))
  /\ trace (snd r) = [ExecuteAndFetch text].
Proof.
  cbv zeta.
  apply (@person_chain_renders sample_utilities sample_default None 30%Z);
    reflexivity.
Defined.

(** C2, as it is stated, fails: with no serialization functions does the
    example chain render to the text without the space before it; with the
    sample ones it renders to the text between two spaces. *)
Lemma person_chain_not_stripped :
  (~ exists (U : Utilities) (D : DefaultConnection)
            (connection : option Connection) (thirty : Value),
       joined_query
         (_query
            (self (snd (person_chain thirty (new (Match false connection))))))
       = "MATCH (n:Person) WHERE n.age > 30 RETURN n.name")
  /\ joined_query
       (_query
          (self
             (snd (@person_chain sample_utilities 30%Z (new (Match false None))))))
     = " MATCH (n:Person) WHERE n.age > 30 RETURN n.name ".
Proof.
  split; [|reflexivity].
  intros (U & D & connection & thirty & H).
  exact (@person_chain_leading_space U D connection thirty H).
Qed.

(** C3, as it is stated, fails: the raw fragment [RETURN 1] contains the
    Return keyword, with no space before it; appending it leaves the flag
    false, and [execute] then calls [execute] on the connection. *)
Lemma bare_return_keeps_flag :
  Str.contains "RETURN" "RETURN 1" = true
  /\ _fetch_results
       (self (snd (add_custom_cypher "RETURN 1" (new (QueryBuilder None)))))
     = false
  /\ trace
       (snd (bind (add_custom_cypher "RETURN 1") (fun _ => execute)
                  (new (QueryBuilder None))))
     = [Execute "RETURN 1"].
Proof.
  repeat split.
Qed.

(** The chain
    [create().node(variable="a", labels="X").to(edge_label="REL")
     .node(variable="b", labels="Y")]. *)
Example create_chain_renders :
  joined_query
    (_query
       (self
          (run [call_node (LabelsStr "X") (Some "a") None [];
                call_to (Some "REL") (Some true) None None [];
                call_node (LabelsStr "Y") (Some "b") None []]
               (new (Create None)))))
  = " CREATE (a:X)-[:REL]->(b:Y)".
Proof.
  reflexivity.
Qed.

(** A chain of chaining calls, one of them raising, asks nothing of the
    connection. *)
Lemma chaining_is_silent_witness :
  trace
    (run [call_match false;
          call_node (LabelsStr "Person") (Some "n") None [];
          call_node LabelsNone None None [];
          call_where "n.age" ">" (30%Z : Value);
          call_return_ None]
         (new (QueryBuilder None)))
  = [].
Proof.
  exact (chaining_is_silent
           [call_match false;
            call_node (LabelsStr "Person") (Some "n") None [];
            call_node LabelsNone None None [];
            call_where "n.age" ">" (30%Z : Value);
            call_return_ None]
           (new (QueryBuilder None)) eq_refl).
Defined.

(** A node after a node raises; a node after a condition after a node does
    not. *)
Lemma linking_after_call_witness :
  let person := call_node (LabelsStr "Person") (Some "n") None [] in
  let city := call_node (LabelsStr "City") (Some "m") None [] in
  let adult := @call_where sample_utilities "n.age" ">" 30%Z in
  let w := new (Match false None) in
  fst (invoke city (snd (invoke person w)))
    = Raises InvalidMatchChainException
  /\ fst (invoke city (snd (invoke adult (snd (invoke person w)))))
     <> Raises InvalidMatchChainException.
Proof.
  cbv zeta. split.
  - apply (@linking_after_call sample_utilities
             (call_node (LabelsStr "Person") (Some "n") None [])
             (call_node (LabelsStr "City") (Some "m") None [])
             DeclarativeBaseTypes.NODE
             (new (Match false None)));
      reflexivity.
  - intros H.
    apply (@linking_after_call sample_utilities
             (@call_where sample_utilities "n.age" ">" 30%Z)
             (call_node (LabelsStr "City") (Some "m") None [])
             DeclarativeBaseTypes.NODE
             (snd (invoke (call_node (LabelsStr "Person") (Some "n") None [])
                          (new (Match false None)))))
      in H; try reflexivity.
    discriminate H.
Defined.

(** [get_single] for a field the first row does not hold. *)
Lemma get_single_missing_field_witness :
  let w := new (Match false (Some (sample_connection [[("n.name", 7%Z)]]))) in
  get_single "n.age" w
  = (Raises (KeyError "n.age"),
     {| self := self w;
        trace := [ExecuteAndFetch " MATCH "; Next; GetItem "n.age"] |}).
Proof.
  cbv zeta.
  apply (get_single_missing_field "n.age"
           (new (Match false (Some (sample_connection [[("n.name", 7%Z)]]))))
           (row := [("n.name", 7%Z)]) (rest := []));
    [reflexivity | discriminate | reflexivity].
Defined.

(** An undirected relationship after a node, by [to] and by [from_]. *)
Lemma undirected_to_from_witness :
  let w :=
    run [call_match false; call_node (LabelsStr "Person") (Some "n") None []]
        (new (QueryBuilder None)) in
  joined_query
    (_query (self (snd (to (Some "KNOWS") (Some false) None None [] w))))
  = joined_query
      (_query (self (snd (from_ (Some "KNOWS") (Some false) None None [] w)))).
Proof.
  cbv zeta.
  apply (undirected_to_from (Some "KNOWS") (Some false) None None []
           (run [call_match false;
                 call_node (LabelsStr "Person") (Some "n") None []]
                (new (QueryBuilder None)))).
  reflexivity.
Defined.

(** A Match clause in front and a Return clause at the end. *)
Lemma rendered_text_outer_spaces_witness :
  (exists rest,
      joined_query [MatchPartialQuery false; ReturnPartialQuery None]
      = String " " rest)
  /\ Str.last_char
       (joined_query [MatchPartialQuery false; ReturnPartialQuery None])
     = Some " "%char.
Proof.
  split.
  - apply (rendered_text_outer_spaces (MatchPartialQuery false)
             [ReturnPartialQuery None]).
    reflexivity.
  - apply (rendered_text_outer_spaces (ReturnPartialQuery None)
             [MatchPartialQuery false]).
    reflexivity.
Defined.
